(** * policy_maker/app.py: the bucket-policy custom resource

    A shallow embedding of [src/policy_maker/app.py] and the properties of
    its parameter validation, principal resolution, policy construction and
    create / update / delete handlers.

    The program is Python: its data are JSON-like values, its failures are
    exceptions, and its only effects are three calls on the S3 client.  The
    embedding keeps all three: values are [pyval], a function that may raise
    returns a [result], and a function that talks to S3 runs in the state
    monad [M] over the state of the external service together with the list
    of client calls made so far. *)

From Stdlib Require Import String Ascii List ZArith Bool DecimalString Lia.
Import ListNotations.
Local Open Scope string_scope.

(** ** Python values, exceptions and the builtins the program uses *)

Module Py.

(** The values the handlers see: what [json.loads] and boto3 produce for the
    event and for S3 responses.  A [dict] keeps its insertion order, so it is
    an association list (keys of a Python dict are unique; [dict_get] reads
    the first binding).  Strings are byte strings holding ASCII text; the
    bytes of a UTF-8 encoded character are carried through unchanged, so
    [repr] and [lower] below are Python's on ASCII text and on text whose
    other characters are printable and caseless.
    Floating-point numbers are left out: CloudFormation hands every scalar
    property to a custom resource as a string. *)
#[warnings="-register-all"]
Inductive pyval : Type :=
| PNone
| PBool (b : bool)
| PInt (z : Z)
| PStr (s : string)
| PList (l : list pyval)
| PDict (d : list (string * pyval)).

(** The exception classes that can reach the caller.  [Exception] and
    [ValueError] carry the message the program builds, [KeyError] the missing
    key, [ClientError] the error code and message of the service's reply;
    [ParamValidationError] is botocore's client-side rejection of a call.
    The interpreter's own messages for [TypeError] and [AttributeError]
    differ between Python versions and are not recorded, and neither is the
    report of a [ParamValidationError]. *)
Inductive exn : Type :=
| Exception (msg : string)
| ValueError (msg : string)
| KeyError (key : string)
| TypeError
| AttributeError
| ClientError (code message : string)
| ParamValidationError.

Inductive result (A : Type) : Type :=
| Ok (a : A)
| Raise (e : exn).
Arguments Ok {A} a.
Arguments Raise {A} e.

Definition rbind {A B} (r : result A) (k : A -> result B) : result B :=
  match r with
  | Ok a => k a
  | Raise e => Raise e
  end.

(** Truth value testing: [None], [False], zero, and empty strings, lists and
    dicts are false; everything else is true. *)
Definition truthy (v : pyval) : bool :=
  match v with
  | PNone => false
  | PBool b => b
  | PInt z => negb (Z.eqb z 0)
  | PStr s => negb (String.eqb s "")
  | PList l => match l with [] => false | _ :: _ => true end
  | PDict d => match d with [] => false | _ :: _ => true end
  end.

(** [v is None] *)
Definition is_none (v : pyval) : bool :=
  match v with PNone => true | _ => false end.

(** [isinstance(v, list)] *)
Definition is_list (v : pyval) : bool :=
  match v with PList _ => true | _ => false end.

(** [isinstance(v, str)] *)
Definition is_str (v : pyval) : bool :=
  match v with PStr _ => true | _ => false end.

Fixpoint dict_get (d : list (string * pyval)) (k : string) : option pyval :=
  match d with
  | [] => None
  | (k', v) :: d' => if String.eqb k' k then Some v else dict_get d' k
  end.

(** [v.get(k, default)]: only a dict has the method. *)
Definition get (v : pyval) (k : string) (default : pyval) : result pyval :=
  match v with
  | PDict d => Ok (match dict_get d k with Some x => x | None => default end)
  | _ => Raise AttributeError
  end.

(** [v[k]] for a string key [k]: [KeyError] on a dict without the key; the
    other values are not subscriptable by a string. *)
Definition subscript (v : pyval) (k : string) : result pyval :=
  match v with
  | PDict d => match dict_get d k with
               | Some x => Ok x
               | None => Raise (KeyError k)
               end
  | _ => Raise TypeError
  end.

(** [v == s] for a string literal [s]: only an equal string is equal to it. *)
Definition eq_str (v : pyval) (s : string) : bool :=
  match v with
  | PStr t => String.eqb t s
  | _ => false
  end.

(** [len(v)] *)
Definition len (v : pyval) : result nat :=
  match v with
  | PStr s => Ok (String.length s)
  | PList l => Ok (List.length l)
  | PDict d => Ok (List.length d)
  | _ => Raise TypeError
  end.

(** [iter(v)], as the [for] statement and a comprehension use it: the items
    of a list, the characters of a string (here its bytes: the program only
    ever calls [.get] on one, which fails on the first), the keys of a
    dict. *)
Definition iter (v : pyval) : result (list pyval) :=
  match v with
  | PList l => Ok l
  | PStr s => Ok (map (fun c => PStr (String c "")) (list_ascii_of_string s))
  | PDict d => Ok (map (fun kv => PStr (fst kv)) d)
  | _ => Raise TypeError
  end.

(** [a + b]: the program only ever adds to a list, and only a list can be
    added to a list. *)
Definition add (a b : pyval) : result pyval :=
  match a, b with
  | PList l, PList m => Ok (PList (l ++ m))
  | _, _ => Raise TypeError
  end.

(** *** [str.lower] *)

Definition is_upper (c : ascii) : bool :=
  (65 <=? nat_of_ascii c)%nat && (nat_of_ascii c <=? 90)%nat.

Definition lower_ascii (c : ascii) : ascii :=
  if is_upper c then ascii_of_nat (nat_of_ascii c + 32) else c.

(** On ASCII this is [str.lower].  Bytes of non-ASCII characters are kept:
    Python maps such a character to another non-ASCII character, or (for the
    Kelvin sign and the dotted capital I) to text containing [k] or [i], so
    the comparison with ['true'] made by the program comes out the same. *)
Fixpoint lower (s : string) : string :=
  match s with
  | EmptyString => EmptyString
  | String c s' => String (lower_ascii c) (lower s')
  end.

(** *** [repr] and [str] *)

Definition squote : ascii := "'"%char.
Definition dquote : ascii := "034"%char.
Definition backslash : ascii := "\"%char.

Fixpoint contains (c : ascii) (s : string) : bool :=
  match s with
  | EmptyString => false
  | String c' s' => Ascii.eqb c c' || contains c s'
  end.

Definition hex_digit (n : nat) : ascii :=
  nth n (list_ascii_of_string "0123456789abcdef") "0"%char.

(** One character of [repr(s)] inside the quote [q]: the quote and the
    backslash are escaped, tab, newline and carriage return have their
    letters, the other control characters are [\xhh].  A byte of a non-ASCII
    character is copied, as Python copies a printable character; the escapes
    Python writes for non-ASCII characters that are not printable are outside
    this model. *)
Definition repr_char (q c : ascii) : string :=
  let n := nat_of_ascii c in
  if Ascii.eqb c q || Ascii.eqb c backslash then String backslash (String c "")
  else if (n =? 9)%nat then "\t"
  else if (n =? 10)%nat then "\n"
  else if (n =? 13)%nat then "\r"
  else if (n <? 32)%nat || (n =? 127)%nat
       then "\x" ++ String (hex_digit (n / 16)) (String (hex_digit (n mod 16)) "")
  else String c "".

Fixpoint repr_chars (q : ascii) (s : string) : string :=
  match s with
  | EmptyString => EmptyString
  | String c s' => repr_char q c ++ repr_chars q s'
  end.

(** [repr] of a string: single quotes, unless the text has a single quote
    and no double quote. *)
Definition repr_str (s : string) : string :=
  let q := if contains squote s && negb (contains dquote s)
           then dquote else squote in
  String q (repr_chars q s ++ String q "").

Fixpoint repr (v : pyval) : string :=
  match v with
  | PNone => "None"
  | PBool true => "True"
  | PBool false => "False"
  | PInt z => NilZero.string_of_int (Z.to_int z)
  | PStr s => repr_str s
  | PList l => "[" ++ String.concat ", " (map repr l) ++ "]"
  | PDict d =>
      "{" ++ String.concat ", "
               (map (fun kv => repr_str (fst kv) ++ ": " ++ repr (snd kv)) d)
          ++ "}"
  end.

(** [str(v)], which is also what an f-string substitutes for [{v}]: the
    text of a string, the [repr] of anything else. *)
Definition str (v : pyval) : string :=
  match v with
  | PStr s => s
  | _ => repr v
  end.

End Py.
Export Py.

Declare Scope py_scope.
Delimit Scope py_scope with py.
Notation "'let?' x := e 'in' k" := (rbind e (fun x => k))
  (at level 10, x pattern, e at level 100, k at level 200) : py_scope.
Local Open Scope py_scope.

(** ** The S3 client and the monad of the handlers *)

(** The three S3 operations the program calls, with their keyword
    arguments. *)
Inductive api_call : Type :=
| GetBucketTagging (Bucket : pyval)
| PutBucketPolicy (Bucket : pyval) (Policy : string)
| DeleteBucketPolicy (Bucket : pyval).

(** boto3's client is outside the program.  It is a parameter: each
    operation maps the state [W] of the service to a reply, or an exception,
    and the next state. *)
Record S3Client (W : Type) : Type := {
  get_bucket_tagging : pyval -> W -> result pyval * W;
  put_bucket_policy : pyval -> string -> W -> result pyval * W;
  delete_bucket_policy : pyval -> W -> result pyval * W
}.
Arguments get_bucket_tagging {W} _ _ _.
Arguments put_bucket_policy {W} _ _ _ _.
Arguments delete_bucket_policy {W} _ _ _.

(** What a handler runs on: the service, and the calls made on the client so
    far, oldest first.  The call list is ghost state: the program never reads
    it; it is there to say which calls an operation made. *)
Record state (W : Type) : Type := {
  world : W;
  calls : list api_call
}.
Arguments Build_state {W} _ _.
Arguments world {W} _.
Arguments calls {W} _.

Definition M (W A : Type) : Type := state W -> result A * state W.

Definition ret {W A} (a : A) : M W A := fun st => (Ok a, st).

Definition raise {W A} (e : exn) : M W A := fun st => (Raise e, st).

Definition bind {W A B} (c : M W A) (k : A -> M W B) : M W B :=
  fun st =>
    match c st with
    | (Ok a, st') => k a st'
    | (Raise e, st') => (Raise e, st')
    end.

(** A computation without effects, run inside a handler. *)
Definition lift {W A} (r : result A) : M W A := fun st => (r, st).

(** A client call: the reply and next state are the client's, and the call
    is recorded. *)
Definition invoke {W} (c : api_call) (op : W -> result pyval * W) : M W pyval :=
  fun st =>
    let (r, w') := op (world st) in
    (r, {| world := w'; calls := calls st ++ [c] |}).

Notation "x <- c ;; k" := (bind c (fun x => k))
  (at level 61, c at next level, right associativity) : py_scope.

(** Opens the monad in a goal, so that a handler reads as the sequence of
    its steps on the state. *)
Ltac run_monad := unfold bind, lift, invoke, raise, ret.

(** The Lambda context object; the program reads one attribute. *)
Record LambdaContext : Type := {
  aws_request_id : string
}.

(** ** The program *)

Definition principal_tag_name : string :=
  "aws:servicecatalog:provisioningPrincipalArn".

(** [get_params(event)] (lines 20-45): the bucket name, the extra principals
    and the encryption flag of the event's [ResourceProperties]. *)
Definition get_params (event : pyval) : result (pyval * list pyval * bool) :=
  let? parameters := subscript event "ResourceProperties" in
  let? bucket_name := get parameters "BucketName" PNone in
  if is_none bucket_name then Raise (Exception "Required parameters: BucketName")
  else
    let? extra_principals := get parameters "ExtraPrincipalArns" PNone in
    let extra_principals :=
      if negb (truthy extra_principals) then PList []
      else if negb (is_list extra_principals) then PList [extra_principals]
      else extra_principals in
    let? items := iter extra_principals in
    let extra_principals := filter truthy items in
    let? require_encryption := get parameters "RequireEncryption" (PStr "false") in
    let require_encryption := str require_encryption in
    let require_encryption := String.eqb (lower require_encryption) "true" in
    Ok (bucket_name, extra_principals, require_encryption).

(** The [for ... else] of [get_principal_tag] (lines 66-71) over the items
    [iter] produced. *)
Fixpoint scan_tags (tags : list pyval) : result pyval :=
  match tags with
  | [] => Raise (ValueError ("Could not derive a value for " ++ principal_tag_name
                             ++ " from tags"))
  | tag :: rest =>
      let? key := get tag "Key" PNone in
      if eq_str key principal_tag_name then get tag "Value" PNone
      else scan_tags rest
  end.

(** [get_principal_tag(tags)] (lines 63-71). *)
Definition get_principal_tag (tags : pyval) : result pyval :=
  let? items := iter tags in
  scan_tags items.

(** [combine_principals(principal, extra_principals)] (lines 74-78). *)
Definition combine_principals (principal extra_principals : pyval) : result pyval :=
  let principals := PList [principal] in
  if negb (is_none extra_principals) then add extra_principals principals
  else Ok principals.

(** The dict [policy] that [create_policy_document] serialises (lines
    82-144). *)
Definition policy_document (bucket_name principals : pyval)
    (require_encrypted : bool) : pyval :=
  let bucket_arn := "arn:aws:s3:::" ++ str bucket_name in
  let bucket_objects_arn := bucket_arn ++ "/*" in
  let statement :=
    [ PDict [ ("Sid", PStr "ReadAccess");
              ("Effect", PStr "Allow");
              ("Principal", PDict [("AWS", principals)]);
              ("Action", PList [PStr "s3:ListBucket*"; PStr "s3:GetBucketLocation"]);
              ("Resource", PStr bucket_arn) ];
      PDict [ ("Sid", PStr "WriteAccess");
              ("Effect", PStr "Allow");
              ("Principal", PDict [("AWS", principals)]);
              ("Action", PList [PStr "s3:*Object*"; PStr "s3:*MultipartUpload*"]);
              ("Resource", PStr bucket_objects_arn) ] ] in
  let statement :=
    if require_encrypted then
      let additional_statements :=
        [ PDict [ ("Sid", PStr "DenyIncorrectEncryptionHeader");
                  ("Effect", PStr "Deny");
                  ("Principal", PDict [("AWS", principals)]);
                  ("Action", PStr "s3:PutObject");
                  ("Resource", PStr bucket_objects_arn);
                  ("Condition",
                   PDict [("StringNotEquals",
                           PDict [("s3:x-amz-server-side-encryption",
                                   PStr "AES256")])]) ];
          PDict [ ("Sid", PStr "DenyUnEncryptedObjectUploads");
                  ("Effect", PStr "Deny");
                  ("Principal", PDict [("AWS", principals)]);
                  ("Action", PStr "s3:PutObject");
                  ("Resource", PStr bucket_objects_arn);
                  ("Condition",
                   PDict [("Null",
                           PDict [("s3:x-amz-server-side-encryption",
                                   PStr "true")])]) ] ] in
      (statement ++ additional_statements)%list
    else statement in
  PDict [ ("Version", PStr "2012-10-17"); ("Statement", PList statement) ].

Section Handlers.

(** [json.dumps] is the standard library's; the program is read for any
    serialiser. *)
Variable json_dumps : pyval -> string.

(** [get_client('s3')] hands out boto3's client; making the client is not a
    call on the service and is not modelled. *)
Context {W : Type}.
Variable s3 : S3Client W.

(** [create_policy_document(bucket_name, principals, require_encrypted)]
    (lines 81-145). *)
Definition create_policy_document (bucket_name principals : pyval)
    (require_encrypted : bool) : string :=
  json_dumps (policy_document bucket_name principals require_encrypted).

(** [get_bucket_tags(bucket)] (lines 48-60).  An exception of the client
    is logged when it is a [ClientError] and propagates either way. *)
Definition get_bucket_tags (bucket : pyval) : M W pyval :=
  response <- invoke (GetBucketTagging bucket) (get_bucket_tagging s3 bucket) ;;
  tags <- lift (get response "TagSet" PNone) ;;
  if negb (truthy tags) then
    raise (Exception ("No tags returned, received: " ++ str response))
  else
    n <- lift (len tags) ;;
    if (n =? 0)%nat then
      raise (Exception ("No tags returned, received: " ++ str response))
    else ret tags.

(** [attach_policy(bucket_name, policy_document)] (lines 148-155). *)
Definition attach_policy (bucket_name : pyval) (policy_document : string)
    : M W unit :=
  _ <- invoke (PutBucketPolicy bucket_name policy_document)
              (put_bucket_policy s3 bucket_name policy_document) ;;
  ret tt.

(** [create(event, context)] (lines 158-178), registered for both Create
    and Update events. *)
Definition create (event : pyval) (context : LambdaContext) : M W pyval :=
  params <- lift (get_params event) ;;
  let '(bucket_name, extra_principals, require_encryption) := params in
  tags <- get_bucket_tags bucket_name ;;
  principal_arn <- lift (get_principal_tag tags) ;;
  principals <- lift (combine_principals principal_arn (PList extra_principals)) ;;
  let policy_document :=
    create_policy_document bucket_name principals require_encryption in
  _ <- attach_policy bucket_name policy_document ;;
  let aws_request_id := aws_request_id context in
  let physical_resource_id :=
    "BucketPolicy_" ++ str bucket_name ++ "_" ++ aws_request_id in
  request_type <- lift (subscript event "RequestType") ;;
  if eq_str request_type "Update" then lift (subscript event "PhysicalResourceId")
  else ret (PStr physical_resource_id).

(** [delete(event, context)] (lines 181-187). *)
Definition delete (event : pyval) (context : LambdaContext) : M W pyval :=
  params <- lift (get_params event) ;;
  let '(bucket_name, _, _) := params in
  _ <- invoke (DeleteBucketPolicy bucket_name) (delete_bucket_policy s3 bucket_name) ;;
  lift (subscript event "PhysicalResourceId").

End Handlers.

(** ** Closed forms of the validation rules, and the specification's words *)

(** Two characters that are equal, or the same ASCII letter in two cases. *)
Definition same_letter (a b : ascii) : bool :=
  Ascii.eqb a b
  || (is_upper a && Ascii.eqb (ascii_of_nat (nat_of_ascii a + 32)) b)
  || (is_upper b && Ascii.eqb a (ascii_of_nat (nat_of_ascii b + 32))).

(** Equality of strings up to the case of ASCII letters. *)
Fixpoint caseless_eq (s t : string) : bool :=
  match s, t with
  | EmptyString, EmptyString => true
  | String a s', String b t' => same_letter a b && caseless_eq s' t'
  | _, _ => false
  end.

(** The sixteen ways to write the word. *)
Definition true_spellings : list string :=
  [ "true"; "truE"; "trUe"; "trUE"; "tRue"; "tRuE"; "tRUe"; "tRUE";
    "True"; "TruE"; "TrUe"; "TrUE"; "TRue"; "TRuE"; "TRUe"; "TRUE" ].

(** The specification's rule for [requireEncryption], on the raw property
    ([None] when the key is absent): the value as a string, compared with
    ["true"] up to case. *)
Definition require_encryption_spec (raw : option pyval) : bool :=
  match raw with
  | None => false
  | Some v => caseless_eq (str v) "true"
  end.

(** The values Python counts as false, one by one: [None], [False], [0],
    [''], [[]] and [{}].  These are what [if not extra_principals] and
    [if extra] of [get_params] test for. *)
Definition empty (v : pyval) : bool :=
  match v with
  | PNone | PBool false | PInt 0 | PStr EmptyString | PList [] | PDict [] => true
  | _ => false
  end.

(** The rule of [get_params] for the extra principals in closed form, on the
    raw property: absent or false for Python gives the empty list, a list is
    filtered of its entries that are false for Python, any other single
    value is wrapped. *)
Definition extra_principals_spec (raw : option pyval) : list pyval :=
  match raw with
  | None => []
  | Some v =>
      if empty v then []
      else match v with
           | PList l => filter (fun x => negb (empty x)) l
           | _ => [v]
           end
  end.

(** The same rule in the words of the specification: "absent or empty
    becomes the empty list; a single non-list scalar becomes a one-element
    list; any list is filtered to drop empty/blank entries".  Absent or empty
    is no value, [None], or a string, list or dict without content; an entry
    is empty or blank when it is [None], a string of white space only (the
    empty string included), or a list or dict without content.  Numbers and
    booleans are scalars and are neither. *)
Definition is_space (c : ascii) : bool :=
  let n := nat_of_ascii c in
  (n =? 32)%nat || ((9 <=? n)%nat && (n <=? 13)%nat).

Fixpoint blank (s : string) : bool :=
  match s with
  | EmptyString => true
  | String c s' => is_space c && blank s'
  end.

Definition empty_or_blank (v : pyval) : bool :=
  match v with
  | PNone | PList [] | PDict [] => true
  | PStr s => blank s
  | _ => false
  end.

Definition absent_or_empty (raw : option pyval) : bool :=
  match raw with
  | None | Some PNone | Some (PStr EmptyString)
  | Some (PList []) | Some (PDict []) => true
  | _ => false
  end.

Definition extra_principals_as_worded (raw : option pyval) : list pyval :=
  if absent_or_empty raw then []
  else match raw with
       | Some (PList l) => filter (fun x => negb (empty_or_blank x)) l
       | Some v => [v]
       | None => []
       end.

(** [needle] occurs in [hay]. *)
Definition occurs_in (needle hay : string) : Prop :=
  exists before after, hay = before ++ needle ++ after.

(** The statements of a policy document, and one field of each. *)
Definition statements_of (document : pyval) : list pyval :=
  match document with
  | PDict d => match dict_get d "Statement" with
               | Some (PList l) => l
               | _ => []
               end
  | _ => []
  end.

Definition field (k : string) (statement : pyval) : option pyval :=
  match statement with
  | PDict d => dict_get d k
  | _ => None
  end.

Definition bucket_resource (bucket_name : string) : string :=
  "arn:aws:s3:::" ++ bucket_name.

Definition object_resource (bucket_name : string) : string :=
  bucket_resource bucket_name ++ "/*".

(** ** A Bucket Store to run the handlers on *)

(** A small model of S3 behind boto3's client, for running the handlers on
    concrete events.  Each bucket has tags and maybe a policy.  The client
    checks the bucket name before anything is sent: a value that is not a
    string makes its check raise [TypeError], and a string that is not one to
    255 letters, digits, dots, hyphens and underscores is refused with
    [ParamValidationError] (boto3 also lets an access-point ARN through; the
    store has none).  The service then answers [NoSuchBucket] for a bucket it
    does not have and [NoSuchTagSet] for a bucket without tags; it replaces
    the policy on [put_bucket_policy]; and it answers [delete_bucket_policy]
    on a bucket that has no policy as it answers any other, with success.
    The metadata of a reply, which the program never reads, is left out. *)
Module Store.

Record bucket_state : Type := {
  tag_set : list (string * string);
  policy : option string
}.

Definition t : Type := list (string * bucket_state).

Fixpoint find (w : t) (name : string) : option bucket_state :=
  match w with
  | [] => None
  | (n, b) :: w' => if String.eqb n name then Some b else find w' name
  end.

Fixpoint set_policy (w : t) (name : string) (p : option string) : t :=
  match w with
  | [] => []
  | (n, b) :: w' =>
      if String.eqb n name
      then (n, {| tag_set := tag_set b; policy := p |}) :: w'
      else (n, b) :: set_policy w' name p
  end.

Definition tag (kv : string * string) : pyval :=
  PDict [("Key", PStr (fst kv)); ("Value", PStr (snd kv))].

Definition no_such_bucket : exn :=
  ClientError "NoSuchBucket" "The specified bucket does not exist".

Definition no_such_tag_set : exn :=
  ClientError "NoSuchTagSet" "The TagSet does not exist".

Definition name_char (c : ascii) : bool :=
  let n := nat_of_ascii c in
  ((48 <=? n)%nat && (n <=? 57)%nat)
  || ((65 <=? n)%nat && (n <=? 90)%nat)
  || ((97 <=? n)%nat && (n <=? 122)%nat)
  || (n =? 46)%nat || (n =? 45)%nat || (n =? 95)%nat.

Fixpoint name_chars (s : string) : bool :=
  match s with
  | EmptyString => true
  | String c s' => name_char c && name_chars s'
  end.

Definition valid_bucket_name (name : string) : bool :=
  (1 <=? String.length name)%nat && (String.length name <=? 255)%nat
  && name_chars name.

(** The client's check of the [Bucket] argument, then the service. *)
Definition on_bucket (bucket : pyval) (w : t)
    (service : string -> result pyval * t) : result pyval * t :=
  match bucket with
  | PStr name =>
      if valid_bucket_name name then service name
      else (Raise ParamValidationError, w)
  | _ => (Raise TypeError, w)
  end.

Definition get_tagging (bucket : pyval) (w : t) : result pyval * t :=
  on_bucket bucket w (fun name =>
    match find w name with
    | None => (Raise no_such_bucket, w)
    | Some b =>
        match tag_set b with
        | [] => (Raise no_such_tag_set, w)
        | ts => (Ok (PDict [("TagSet", PList (map tag ts))]), w)
        end
    end).

Definition put_policy (bucket : pyval) (document : string) (w : t)
    : result pyval * t :=
  on_bucket bucket w (fun name =>
    match find w name with
    | None => (Raise no_such_bucket, w)
    | Some _ => (Ok (PDict []), set_policy w name (Some document))
    end).

Definition delete_policy (bucket : pyval) (w : t) : result pyval * t :=
  on_bucket bucket w (fun name =>
    match find w name with
    | None => (Raise no_such_bucket, w)
    | Some _ => (Ok (PDict []), set_policy w name None)
    end).

Definition client : S3Client t := {|
  get_bucket_tagging := get_tagging;
  put_bucket_policy := put_policy;
  delete_bucket_policy := delete_policy
|}.

(** The serialiser used with it: [json.dumps] with its default
    arguments, for documents whose strings are ASCII text. *)
Definition json_char (c : ascii) : string :=
  let n := nat_of_ascii c in
  if Ascii.eqb c dquote || Ascii.eqb c backslash
  then String backslash (String c "")
  else if (n =? 10)%nat then "\n"
  else if (n =? 13)%nat then "\r"
  else if (n =? 9)%nat then "\t"
  else if (n =? 8)%nat then "\b"
  else if (n =? 12)%nat then "\f"
  else if (n <? 32)%nat || (126 <? n)%nat
       then "\u00" ++ String (hex_digit (n / 16)) (String (hex_digit (n mod 16)) "")
  else String c "".

Fixpoint json_chars (s : string) : string :=
  match s with
  | EmptyString => EmptyString
  | String c s' => json_char c ++ json_chars s'
  end.

Definition json_str (s : string) : string :=
  String dquote (json_chars s ++ String dquote "").

Fixpoint dumps (document : pyval) : string :=
  match document with
  | PNone => "null"
  | PBool true => "true"
  | PBool false => "false"
  | PInt z => NilZero.string_of_int (Z.to_int z)
  | PStr s => json_str s
  | PList l => "[" ++ String.concat ", " (map dumps l) ++ "]"
  | PDict d =>
      "{" ++ String.concat ", "
               (map (fun kv => json_str (fst kv) ++ ": " ++ dumps (snd kv)) d)
          ++ "}"
  end.

End Store.

(** The end-to-end example of the specification (section 8). *)
Definition owner_arn : string := "arn:aws:iam::111:role/Owner".
Definition extra_arn : string := "arn:aws:iam::222:role/Extra".

Definition example_properties : list (string * pyval) :=
  [ ("BucketName", PStr "my-bucket");
    ("ExtraPrincipalArns", PList [PStr extra_arn]);
    ("RequireEncryption", PStr "true") ].

Definition create_event : pyval :=
  PDict [ ("RequestType", PStr "Create");
          ("ResourceProperties", PDict example_properties) ].

Definition update_event : pyval :=
  PDict [ ("RequestType", PStr "Update");
          ("PhysicalResourceId", PStr "X");
          ("ResourceProperties", PDict example_properties) ].

Definition delete_event : pyval :=
  PDict [ ("RequestType", PStr "Delete");
          ("PhysicalResourceId", PStr "X");
          ("ResourceProperties", PDict example_properties) ].

Definition example_context : LambdaContext :=
  {| aws_request_id := "req-1" |}.

Definition example_store (p : option string) : Store.t :=
  [ ("my-bucket",
     {| Store.tag_set := [(principal_tag_name, owner_arn)];
        Store.policy := p |}) ].

Definition fresh {W} (w : W) : state W := {| world := w; calls := [] |}.

(** An event whose [BucketName] is the empty string, and the bucket store
    with no bucket at all. *)
Definition empty_name_event : pyval :=
  PDict [ ("RequestType", PStr "Create");
          ("ResourceProperties", PDict [("BucketName", PStr "")]) ].

Definition no_buckets : Store.t := [].

(** A client that is not S3: its reply to [get_bucket_tagging] carries an
    empty [TagSet], the reply lines 57-59 of the program guard against (S3
    itself raises [NoSuchTagSet] for a bucket without tags). *)
Definition empty_tag_set_client : S3Client Store.t := {|
  get_bucket_tagging := fun _ w => (Ok (PDict [("TagSet", PList [])]), w);
  put_bucket_policy := Store.put_policy;
  delete_bucket_policy := Store.delete_policy
|}.

(** A Create event with the given resource properties. *)
Definition event_with (properties : list (string * pyval)) : pyval :=
  PDict [ ("RequestType", PStr "Create");
          ("ResourceProperties", PDict properties) ].

(** An event without [BucketName]. *)
Definition nameless_event : pyval :=
  PDict [ ("RequestType", PStr "Create");
          ("ResourceProperties", PDict [("RequireEncryption", PStr "true")]) ].

(** An event that has no [ResourceProperties], and one that has nothing
    else. *)
Definition bare_event : pyval :=
  PDict [ ("RequestType", PStr "Delete"); ("PhysicalResourceId", PStr "X") ].

Definition untyped_event : pyval :=
  PDict [ ("ResourceProperties", PDict example_properties) ].

(** The example bucket with tags, none of them the principal tag. *)
Definition unowned_store : Store.t :=
  [ ("my-bucket",
     {| Store.tag_set := [("team", "storage")]; Store.policy := None |}) ].

(** The example bucket with a policy that cannot be replaced: a store that
    refuses every [put_bucket_policy]. *)
Definition read_only_client : S3Client Store.t := {|
  get_bucket_tagging := Store.get_tagging;
  put_bucket_policy := fun _ _ w =>
    (Raise (ClientError "AccessDenied" "Access Denied"), w);
  delete_bucket_policy := Store.delete_policy
|}.

(** Two buckets whose names differ by an underscore, both owned. *)
Definition underscore_store : Store.t :=
  [ ("a_b", {| Store.tag_set := [(principal_tag_name, owner_arn)];
               Store.policy := None |});
    ("a", {| Store.tag_set := [(principal_tag_name, owner_arn)];
             Store.policy := None |}) ].

(** ** Checks on concrete inputs *)

Example str_of_values :
  str (PList [PStr "a'b"; PInt (-3); PNone; PDict [("k", PBool true)]])
  = String "[" (String dquote "a'b") ++ String dquote ", -3, None, {'k': True}]".
Proof. reflexivity. Qed.

Example end_to_end_create :
  create Store.dumps Store.client create_event example_context
         (fresh (example_store None))
  = (Ok (PStr "BucketPolicy_my-bucket_req-1"),
     {| world := example_store
                   (Some (Store.dumps
                            (policy_document (PStr "my-bucket")
                               (PList [PStr extra_arn; PStr owner_arn]) true)));
        calls := [ GetBucketTagging (PStr "my-bucket");
                   PutBucketPolicy (PStr "my-bucket")
                     (Store.dumps
                        (policy_document (PStr "my-bucket")
                           (PList [PStr extra_arn; PStr owner_arn]) true)) ] |}).
Proof. reflexivity. Qed.

Example dumps_read_statement :
  Store.dumps (PDict [("Sid", PStr "ReadAccess"); ("n", PList [PInt 1; PNone])])
  = String "{" (String dquote "Sid") ++ String dquote ": "
    ++ String dquote "ReadAccess" ++ String dquote ", "
    ++ String dquote "n" ++ String dquote ": [1, null]}".
Proof. reflexivity. Qed.

(** ** The policy document *)

Section Document.

Variable json_dumps : pyval -> string.

(** C1: without encryption, for every bucket name and every principals
    value (a list of principals in particular), [create_policy_document]
    returns the serialisation of a document with exactly two statements,
    [ReadAccess] then [WriteAccess]; the resource of the first is
    ["arn:aws:s3:::" ++ bucket_name] and the resource of the second is that
    string followed by ["/*"]. *)
Theorem create_policy_document_plain (bucket_name : string) (principals : pyval) :
  create_policy_document json_dumps (PStr bucket_name) principals false
  = json_dumps (policy_document (PStr bucket_name) principals false)
  /\ exists read write,
       statements_of (policy_document (PStr bucket_name) principals false)
       = [read; write]
       /\ field "Sid" read = Some (PStr "ReadAccess")
       /\ field "Sid" write = Some (PStr "WriteAccess")
       /\ field "Resource" read = Some (PStr ("arn:aws:s3:::" ++ bucket_name))
       /\ field "Resource" write
          = Some (PStr (("arn:aws:s3:::" ++ bucket_name) ++ "/*")).
Proof.
  split; [reflexivity|].
  unfold policy_document; cbn [statements_of dict_get String.eqb].
  do 2 eexists; split; [reflexivity|].
  repeat split; reflexivity.
Qed.

(** C2: with encryption required, the document has exactly four
    statements: [ReadAccess], [WriteAccess], then
    [DenyIncorrectEncryptionHeader] and [DenyUnEncryptedObjectUploads] in
    that order.  Both added statements have effect [Deny] and the object
    resource; the first has the condition [StringNotEquals] of the
    server-side-encryption header against [AES256], the second the
    condition [Null] of that header. *)
Theorem create_policy_document_encrypted (bucket_name : string) (principals : pyval) :
  create_policy_document json_dumps (PStr bucket_name) principals true
  = json_dumps (policy_document (PStr bucket_name) principals true)
  /\ exists read write deny_header deny_missing,
       statements_of (policy_document (PStr bucket_name) principals true)
       = [read; write; deny_header; deny_missing]
       /\ [read; write]
          = statements_of (policy_document (PStr bucket_name) principals false)
       /\ map (field "Sid") [read; write; deny_header; deny_missing]
          = [ Some (PStr "ReadAccess"); Some (PStr "WriteAccess");
              Some (PStr "DenyIncorrectEncryptionHeader");
              Some (PStr "DenyUnEncryptedObjectUploads") ]
       /\ map (field "Effect") [deny_header; deny_missing]
          = [ Some (PStr "Deny"); Some (PStr "Deny") ]
       /\ map (field "Resource") [deny_header; deny_missing]
          = [ Some (PStr (object_resource bucket_name));
              Some (PStr (object_resource bucket_name)) ]
       /\ field "Condition" deny_header
          = Some (PDict [("StringNotEquals",
                          PDict [("s3:x-amz-server-side-encryption",
                                  PStr "AES256")])])
       /\ field "Condition" deny_missing
          = Some (PDict [("Null",
                          PDict [("s3:x-amz-server-side-encryption",
                                  PStr "true")])]).
Proof.
  split; [reflexivity|].
  unfold policy_document; cbn [statements_of dict_get String.eqb app].
  do 4 eexists; split; [reflexivity|].
  repeat split; reflexivity.
Qed.

(** C10: with encryption required, [create_policy_document] returns the
    serialisation of a document in which the [Action] of each of the two
    Deny statements is the string ["s3:PutObject"], not a list, while the
    [Action] of each of the two Allow statements is a list of strings. *)
Theorem deny_action_is_a_string (bucket_name principals : pyval) :
  create_policy_document json_dumps bucket_name principals true
  = json_dumps (policy_document bucket_name principals true)
  /\ map (field "Effect") (statements_of (policy_document bucket_name principals true))
     = [ Some (PStr "Allow"); Some (PStr "Allow");
         Some (PStr "Deny"); Some (PStr "Deny") ]
  /\ map (field "Action") (statements_of (policy_document bucket_name principals true))
     = [ Some (PList [PStr "s3:ListBucket*"; PStr "s3:GetBucketLocation"]);
         Some (PList [PStr "s3:*Object*"; PStr "s3:*MultipartUpload*"]);
         Some (PStr "s3:PutObject");
         Some (PStr "s3:PutObject") ]
  /\ map (option_map is_list)
         (map (field "Action")
              (statements_of (policy_document bucket_name principals true)))
     = [ Some true; Some true; Some false; Some false ]
  /\ map (option_map is_str)
         (map (field "Action")
              (statements_of (policy_document bucket_name principals true)))
     = [ Some false; Some false; Some true; Some true ].
Proof. repeat split; reflexivity. Qed.

End Document.

(** ** Principals *)

(** C6: [combine_principals owner extras] is [extras ++ [owner]]: the extras
    in their order, the owner last, nothing removed; its length is one more
    than that of [extras], whether or not the owner is among them. *)
Theorem combine_principals_appends_owner (owner : pyval) (extras : list pyval) :
  combine_principals owner (PList extras) = Ok (PList (extras ++ [owner]))
  /\ List.length (extras ++ [owner]) = S (List.length extras)
  /\ last (extras ++ [owner]) PNone = owner
  /\ firstn (List.length extras) (extras ++ [owner]) = extras.
Proof.
  repeat split.
  - rewrite length_app; cbn; lia.
  - apply last_last.
  - rewrite firstn_app, Nat.sub_diag, firstn_all; cbn. apply app_nil_r.
Qed.

Example combine_principals_keeps_duplicates :
  combine_principals (PStr "P0") (PList [PStr "P0"; PStr "E1"; PStr "P0"])
  = Ok (PList [PStr "P0"; PStr "E1"; PStr "P0"; PStr "P0"]).
Proof. reflexivity. Qed.

Example combine_principals_example :
  combine_principals (PStr "P0") (PList [PStr "E1"; PStr "E2"])
  = Ok (PList [PStr "E1"; PStr "E2"; PStr "P0"]).
Proof. reflexivity. Qed.

(** ** Parameter validation *)

Lemma empty_not_truthy (v : pyval) : empty v = negb (truthy v).
Proof.
  destruct v as [ | [|] | [|?|?] | [|? ?] | [|? ?] | [|? ?] ]; reflexivity.
Qed.

Lemma filter_empty_truthy (l : list pyval) :
  filter (fun x => negb (empty x)) l = filter truthy l.
Proof.
  apply filter_ext; intro v. rewrite empty_not_truthy. apply negb_involutive.
Qed.

Lemma same_letter_lower (a x : ascii) :
  In x ["t"; "r"; "u"; "e"]%char ->
  Ascii.eqb (lower_ascii a) x = same_letter a x.
Proof.
  intros [<-|[<-|[<-|[<-|[]]]]];
    destruct a as [[|] [|] [|] [|] [|] [|] [|] [|]]; reflexivity.
Qed.

Lemma lower_true_caseless (s : string) :
  String.eqb (lower s) "true" = caseless_eq s "true".
Proof.
  destruct s as [|a [|b [|c [|d [|e s]]]]]; cbn [lower caseless_eq String.eqb];
    rewrite <- ?(same_letter_lower _ "t"), <- ?(same_letter_lower _ "r"),
            <- ?(same_letter_lower _ "u"), <- ?(same_letter_lower _ "e")
      by (cbn; tauto);
    repeat match goal with
           | |- context [Ascii.eqb ?x ?y] => destruct (Ascii.eqb x y); cbn
           end; reflexivity.
Qed.

Lemma same_letter_cases (a x : ascii) :
  In x ["t"; "r"; "u"; "e"]%char ->
  same_letter a x = true ->
  a = x \/ a = ascii_of_nat (nat_of_ascii x - 32).
Proof.
  intros [<-|[<-|[<-|[<-|[]]]]];
    destruct a as [[|] [|] [|] [|] [|] [|] [|] [|]]; cbn;
    intro H; try discriminate H; auto.
Qed.

Lemma caseless_true_spellings (s : string) :
  caseless_eq s "true" = true <-> In s true_spellings.
Proof.
  split.
  - destruct s as [|a [|b [|c [|d [|e s]]]]]; cbn [caseless_eq];
      rewrite ?andb_true_iff; try (intros; intuition discriminate).
    intros (Ha & Hb & Hc & Hd & _).
    apply same_letter_cases in Ha, Hb, Hc, Hd; try (cbn; tauto).
    destruct Ha as [-> | ->], Hb as [-> | ->], Hc as [-> | ->], Hd as [-> | ->];
      cbn; tauto.
  - intro H; repeat (destruct H as [<- | H]; [reflexivity|]); destruct H.
Qed.

Lemma str_number_not_true (z : Z) : caseless_eq (str (PInt z)) "true" = false.
Proof.
  cbn. destruct (Z.to_int z) as [d|d]; [destruct d|]; reflexivity.
Qed.

(** What [get_params] returns when the event has its properties and a bucket
    name: the name as given, and the other two normalised as the
    specification words them. *)
Lemma get_params_ok (event : pyval) (parameters : list (string * pyval))
    (bucket_name : pyval) :
  subscript event "ResourceProperties" = Ok (PDict parameters) ->
  dict_get parameters "BucketName" = Some bucket_name ->
  is_none bucket_name = false ->
  get_params event
  = Ok (bucket_name,
        extra_principals_spec (dict_get parameters "ExtraPrincipalArns"),
        require_encryption_spec (dict_get parameters "RequireEncryption")).
Proof.
  intros Hev Hname Hnone. unfold get_params.
  rewrite Hev; cbn [rbind get]. rewrite Hname, Hnone.
  assert (Hextra :
    forall raw,
      (let? items := iter (if negb (truthy raw) then PList []
                           else if negb (is_list raw) then PList [raw]
                           else raw) in
       Ok (filter truthy items))
      = Ok (if empty raw then []
            else match raw with
                 | PList l => filter (fun x => negb (empty x)) l
                 | _ => [raw]
                 end)).
  { intro raw. rewrite empty_not_truthy.
    destruct raw as [ | [|] | z | s | l | d ]; cbn; try reflexivity.
    - destruct (Z.eqb z 0) eqn:E; cbn; [reflexivity|]. now rewrite E.
    - destruct (String.eqb s "") eqn:E; cbn; [reflexivity|]. now rewrite E.
    - destruct l; cbn; [reflexivity|]. rewrite !empty_not_truthy, negb_involutive.
      now rewrite filter_empty_truthy.
    - destruct d; reflexivity. }
  unfold extra_principals_spec, require_encryption_spec.
  destruct (dict_get parameters "ExtraPrincipalArns") as [raw|];
    [ specialize (Hextra raw) | specialize (Hextra PNone) ];
    destruct (iter _) as [items|e]; cbn [rbind] in *; try discriminate Hextra;
    injection Hextra as ->;
    destruct (dict_get parameters "RequireEncryption") as [r|];
    rewrite ?lower_true_caseless; reflexivity.
Qed.

(** C8: the encryption flag [get_params] returns is the raw
    [RequireEncryption] value, as a string, compared with ["true"] up to
    case; an absent value gives false.  So the flag is true exactly for the
    sixteen spellings of the word and for the boolean [True] (whose string
    is ["True"]). *)
Theorem require_encryption_parsed (event : pyval)
    (parameters : list (string * pyval)) (bucket_name : pyval) :
  subscript event "ResourceProperties" = Ok (PDict parameters) ->
  dict_get parameters "BucketName" = Some bucket_name ->
  is_none bucket_name = false ->
  exists extras flag,
    get_params event = Ok (bucket_name, extras, flag)
    /\ flag = require_encryption_spec (dict_get parameters "RequireEncryption")
    /\ (dict_get parameters "RequireEncryption" = None -> flag = false)
    /\ (flag = true <->
        dict_get parameters "RequireEncryption" = Some (PBool true)
        \/ exists s, dict_get parameters "RequireEncryption" = Some (PStr s)
                     /\ In s true_spellings).
Proof.
  intros Hev Hname Hnone.
  do 2 eexists; split; [apply (get_params_ok _ _ _ Hev Hname Hnone)|].
  split; [reflexivity|]. split; [now intros ->|].
  destruct (dict_get parameters "RequireEncryption") as [raw|]; cbn.
  - destruct raw as [ | [|] | z | s | l | d ];
      try rewrite str_number_not_true; cbn [str];
      try (split; [ intro H; try discriminate H
                  | intros [H|(s' & H & _)]; discriminate H ]).
    + split; [now left | reflexivity].
    + rewrite caseless_true_spellings. split.
      * intro H. right. now exists s.
      * intros [H|(s' & H & Hin)]; [discriminate H|]. now injection H as ->.
  - split; [discriminate|]. intros [H|(s' & H & _)]; discriminate H.
Qed.

(** C8 on the example event. *)
Lemma require_encryption_parsed_witness :
  subscript create_event "ResourceProperties" = Ok (PDict example_properties)
  /\ exists extras flag,
       get_params create_event = Ok (PStr "my-bucket", extras, flag)
       /\ flag = require_encryption_spec (dict_get example_properties "RequireEncryption")
       /\ (dict_get example_properties "RequireEncryption" = None -> flag = false)
       /\ (flag = true <->
           dict_get example_properties "RequireEncryption" = Some (PBool true)
           \/ exists s, dict_get example_properties "RequireEncryption" = Some (PStr s)
                        /\ In s true_spellings).
Proof.
  split; [reflexivity|].
  apply (require_encryption_parsed create_event example_properties (PStr "my-bucket"));
    reflexivity.
Defined.

Example require_encryption_values :
  map (fun v => get_params (event_with [("BucketName", PStr "b");
                                        ("RequireEncryption", v)]))
      [ PStr "true"; PStr "TRUE"; PStr "TrUe"; PBool true;
        PStr "yes"; PStr " true"; PStr "1"; PBool false; PInt 1; PNone;
        PList [PStr "true"] ]
  = map (fun flag => Ok (PStr "b", [], flag))
      [ true; true; true; true; false; false; false; false; false; false; false ].
Proof. reflexivity. Qed.

(** C9, as the program has it: the extra principals [get_params] returns
    are the raw [ExtraPrincipalArns] value normalised by Python's truth
    test.  Absent, or false for Python ([None], [False], [0], [''], [[]],
    [{}]), gives the empty list; a list gives its entries without those that
    are false for Python, in their order; any other single value gives the
    one-element list of it.  A string of white space is true for Python and
    stays. *)
Theorem extra_principals_normalised (event : pyval)
    (parameters : list (string * pyval)) (bucket_name : pyval) :
  subscript event "ResourceProperties" = Ok (PDict parameters) ->
  dict_get parameters "BucketName" = Some bucket_name ->
  is_none bucket_name = false ->
  exists extras flag,
    get_params event = Ok (bucket_name, extras, flag)
    /\ extras = extra_principals_spec (dict_get parameters "ExtraPrincipalArns")
    /\ match dict_get parameters "ExtraPrincipalArns" with
       | None => extras = []
       | Some (PList l) => extras = filter (fun x => negb (empty x)) l
       | Some v => extras = if empty v then [] else [v]
       end.
Proof.
  intros Hev Hname Hnone.
  do 2 eexists; split; [apply (get_params_ok _ _ _ Hev Hname Hnone)|].
  split; [reflexivity|].
  destruct (dict_get parameters "ExtraPrincipalArns") as [raw|]; [|reflexivity].
  destruct raw as [ | [|] | z | s | l | d ]; try reflexivity.
  destruct l; reflexivity.
Qed.

(** C9 as first stated fails.  The list [[' ', 'arn:a']] keeps its blank
    entry, where the claim's words drop it; and the scalars [0] and [False]
    give the empty list, where the claim's words wrap them. *)
Lemma blank_entry_is_kept :
  get_params (event_with [ ("BucketName", PStr "b");
                           ("ExtraPrincipalArns", PList [PStr " "; PStr "arn:a"]) ])
  = Ok (PStr "b", [PStr " "; PStr "arn:a"], false)
  /\ extra_principals_as_worded (Some (PList [PStr " "; PStr "arn:a"]))
     = [PStr "arn:a"]
  /\ get_params (event_with [ ("BucketName", PStr "b");
                              ("ExtraPrincipalArns", PInt 0) ])
     = Ok (PStr "b", [], false)
  /\ extra_principals_as_worded (Some (PInt 0)) = [PInt 0]
  /\ get_params (event_with [ ("BucketName", PStr "b");
                              ("ExtraPrincipalArns", PBool false) ])
     = Ok (PStr "b", [], false)
  /\ extra_principals_as_worded (Some (PBool false)) = [PBool false].
Proof. repeat split. Qed.

(** C9 on the example event. *)
Lemma extra_principals_normalised_witness :
  subscript create_event "ResourceProperties" = Ok (PDict example_properties)
  /\ exists extras flag,
       get_params create_event = Ok (PStr "my-bucket", extras, flag)
       /\ extras = extra_principals_spec (dict_get example_properties "ExtraPrincipalArns")
       /\ match dict_get example_properties "ExtraPrincipalArns" with
          | None => extras = []
          | Some (PList l) => extras = filter (fun x => negb (empty x)) l
          | Some v => extras = if empty v then [] else [v]
          end.
Proof.
  split; [reflexivity|].
  apply (extra_principals_normalised create_event example_properties (PStr "my-bucket"));
    reflexivity.
Defined.

Example extra_principals_values :
  map (fun v => get_params (event_with [("BucketName", PStr "b");
                                        ("ExtraPrincipalArns", v)]))
      [ PNone; PStr ""; PList []; PStr "arn:a";
        PList [PStr "arn:a"; PStr ""; PNone; PStr "arn:b"] ]
  = map (fun extras => Ok (PStr "b", extras, false))
      [ []; []; []; [PStr "arn:a"]; [PStr "arn:a"; PStr "arn:b"] ].
Proof. reflexivity. Qed.

(** A string of spaces is not empty for Python, and is kept. *)
Example extra_principals_keeps_spaces :
  get_params (event_with [("BucketName", PStr "b");
                          ("ExtraPrincipalArns", PList [PStr " "; PStr "arn:a"])])
  = Ok (PStr "b", [PStr " "; PStr "arn:a"], false).
Proof. reflexivity. Qed.

(** ** The handlers *)

Section Lifecycle.

Variable json_dumps : pyval -> string.
Context {W : Type}.
Variable s3 : S3Client W.

(** C4, as the program has it: when the resource properties have no
    [BucketName] (or have [None] for it), [get_params] raises
    [Exception('Required parameters: BucketName')], and both handlers stop
    there: the state is the one they started in, so no call was made on
    the client. *)
Theorem missing_bucket_name_aborts (event : pyval)
    (parameters : list (string * pyval)) (context : LambdaContext)
    (st : state W) :
  subscript event "ResourceProperties" = Ok (PDict parameters) ->
  dict_get parameters "BucketName" = None
  \/ dict_get parameters "BucketName" = Some PNone ->
  get_params event = Raise (Exception "Required parameters: BucketName")
  /\ create json_dumps s3 event context st
     = (Raise (Exception "Required parameters: BucketName"), st)
  /\ delete s3 event context st
     = (Raise (Exception "Required parameters: BucketName"), st).
Proof.
  intros Hev Hname.
  assert (Hparams :
    get_params event = Raise (Exception "Required parameters: BucketName")).
  { unfold get_params. rewrite Hev; cbn [rbind get].
    destruct Hname as [-> | ->]; reflexivity. }
  split; [exact Hparams|].
  unfold create, delete; run_monad. rewrite Hparams. split; reflexivity.
Qed.

(** What [delete] does, by the answer of the store: a Delete event with a
    bucket name and a prior physical id makes exactly one call,
    [delete_bucket_policy] on that bucket; when the call succeeds the prior
    physical id is returned, and when the store raises, for whatever
    reason, the same exception leaves [delete]. *)
Theorem delete_follows_store (event : pyval)
    (parameters : list (string * pyval)) (bucket_name prior : pyval)
    (context : LambdaContext) (st : state W) :
  subscript event "ResourceProperties" = Ok (PDict parameters) ->
  dict_get parameters "BucketName" = Some bucket_name ->
  is_none bucket_name = false ->
  subscript event "PhysicalResourceId" = Ok prior ->
  delete s3 event context st
  = (match fst (delete_bucket_policy s3 bucket_name (world st)) with
     | Ok _ => Ok prior
     | Raise e => Raise e
     end,
     {| world := snd (delete_bucket_policy s3 bucket_name (world st));
        calls := calls st ++ [DeleteBucketPolicy bucket_name] |}).
Proof.
  intros Hev Hname Hnone Hprior.
  unfold delete; run_monad.
  rewrite (get_params_ok _ _ _ Hev Hname Hnone).
  destruct (delete_bucket_policy s3 bucket_name (world st)) as [[reply|e] w'];
    cbn [fst snd]; [now rewrite Hprior | reflexivity].
Qed.

(** C3: when the body of [create] goes through (the parameters validate,
    the tags yield an owner, the policy is attached), an Update event
    returns the [PhysicalResourceId] it carries, whatever the resource
    properties are, and a Create event returns
    ["BucketPolicy_" ++ bucket name ++ "_" ++ request id], in which the
    bucket name occurs. *)
Theorem create_physical_resource_id (event : pyval)
    (parameters : list (string * pyval)) (bucket_name tags owner : pyval)
    (context : LambdaContext) (st st1 st2 : state W) :
  subscript event "ResourceProperties" = Ok (PDict parameters) ->
  dict_get parameters "BucketName" = Some bucket_name ->
  is_none bucket_name = false ->
  get_bucket_tags s3 bucket_name st = (Ok tags, st1) ->
  get_principal_tag tags = Ok owner ->
  attach_policy s3 bucket_name
    (create_policy_document json_dumps bucket_name
       (PList (extra_principals_spec (dict_get parameters "ExtraPrincipalArns")
               ++ [owner]))
       (require_encryption_spec (dict_get parameters "RequireEncryption")))
    st1 = (Ok tt, st2) ->
  (forall prior,
      subscript event "RequestType" = Ok (PStr "Update") ->
      subscript event "PhysicalResourceId" = Ok prior ->
      create json_dumps s3 event context st = (Ok prior, st2))
  /\ (subscript event "RequestType" = Ok (PStr "Create") ->
      create json_dumps s3 event context st
      = (Ok (PStr ("BucketPolicy_" ++ str bucket_name ++ "_"
                   ++ aws_request_id context)), st2)
      /\ occurs_in (str bucket_name)
           ("BucketPolicy_" ++ str bucket_name ++ "_" ++ aws_request_id context)).
Proof.
  intros Hev Hname Hnone Htags Howner Hattach.
  unfold create; run_monad.
  rewrite (get_params_ok _ _ _ Hev Hname Hnone), Htags, Howner.
  cbn [combine_principals is_none negb add]. rewrite Hattach.
  split.
  - intros prior Htype Hprior. rewrite Htype. cbn [eq_str String.eqb].
    now rewrite Hprior.
  - intro Htype. rewrite Htype. split; [reflexivity|].
    exists "BucketPolicy_", ("_" ++ aws_request_id context). reflexivity.
Qed.

(** C7: principal resolution has two failures and one success.  When the
    reply of [get_bucket_tagging] has no [TagSet], or [None] or an empty
    list for it, [get_bucket_tags] raises [Exception('No tags returned
    ...')] after that one call, and [create] ends with that exception
    without attaching anything.  When the tags are there and none has the
    key [aws:servicecatalog:provisioningPrincipalArn], [get_principal_tag]
    raises a [ValueError], a different exception.  When some tag has the
    key, the value of the first such tag is returned. *)
Theorem principal_resolution :
  (forall (bucket : pyval) (st : state W) (response : list (string * pyval)) (w' : W),
      get_bucket_tagging s3 bucket (world st) = (Ok (PDict response), w') ->
      dict_get response "TagSet" = None
      \/ dict_get response "TagSet" = Some PNone
      \/ dict_get response "TagSet" = Some (PList []) ->
      get_bucket_tags s3 bucket st
      = (Raise (Exception ("No tags returned, received: " ++ str (PDict response))),
         {| world := w'; calls := calls st ++ [GetBucketTagging bucket] |})
      /\ forall event parameters context,
           subscript event "ResourceProperties" = Ok (PDict parameters) ->
           dict_get parameters "BucketName" = Some bucket ->
           is_none bucket = false ->
           create json_dumps s3 event context st
           = (Raise (Exception ("No tags returned, received: "
                                ++ str (PDict response))),
              {| world := w'; calls := calls st ++ [GetBucketTagging bucket] |}))
  /\ (forall tags : list (list (string * pyval)),
         Forall (fun tag => dict_get tag "Key" <> Some (PStr principal_tag_name)) tags ->
         get_principal_tag (PList (map PDict tags))
         = Raise (ValueError ("Could not derive a value for "
                              ++ principal_tag_name ++ " from tags")))
  /\ (forall (before after : list (list (string * pyval)))
             (tag : list (string * pyval)) (value : pyval),
         Forall (fun tag => dict_get tag "Key" <> Some (PStr principal_tag_name)) before ->
         dict_get tag "Key" = Some (PStr principal_tag_name) ->
         dict_get tag "Value" = Some value ->
         get_principal_tag (PList (map PDict (before ++ tag :: after))) = Ok value)
  /\ (forall no_tags no_principal,
         @Raise pyval (Exception no_tags) <> Raise (ValueError no_principal)).
Proof.
  assert (Hskip : forall tag : list (string * pyval),
    dict_get tag "Key" <> Some (PStr principal_tag_name) ->
    eq_str (match dict_get tag "Key" with Some x => x | None => PNone end)
           principal_tag_name = false).
  { intros tag Hkey. destruct (dict_get tag "Key") as [[ | | |s| | ]|]; try reflexivity.
    cbn. destruct (String.eqb_spec s principal_tag_name) as [->|]; [|reflexivity].
    now contradiction Hkey. }
  split; [|split; [|split]].
  - intros bucket st response w' Hreply Hempty.
    assert (Htags :
      get_bucket_tags s3 bucket st
      = (Raise (Exception ("No tags returned, received: " ++ str (PDict response))),
         {| world := w'; calls := calls st ++ [GetBucketTagging bucket] |})).
    { unfold get_bucket_tags; run_monad. rewrite Hreply. cbn [get].
      destruct Hempty as [-> | [-> | ->]]; reflexivity. }
    split; [exact Htags|].
    intros event parameters context Hev Hname Hnone.
    unfold create; run_monad.
    now rewrite (get_params_ok _ _ _ Hev Hname Hnone), Htags.
  - intros tags Hnone. unfold get_principal_tag; cbn [iter rbind].
    induction Hnone as [|tag tags Hkey _ IH]; [reflexivity|].
    cbn [map scan_tags get rbind]. now rewrite (Hskip _ Hkey).
  - intros before after tag value Hnone Hkey Hvalue.
    unfold get_principal_tag; cbn [iter rbind].
    induction Hnone as [|t before Ht _ IH].
    + cbn [app map scan_tags get rbind]. rewrite Hkey, Hvalue.
      cbn [eq_str]. now rewrite String.eqb_refl.
    + cbn [app map scan_tags get rbind]. now rewrite (Hskip _ Ht).
  - discriminate.
Qed.

End Lifecycle.

(** ** The handlers on the example store *)

(** C4 on an event that has no [BucketName]. *)
Lemma missing_bucket_name_aborts_witness :
  dict_get [("RequireEncryption", PStr "true")] "BucketName" = None
  /\ get_params nameless_event = Raise (Exception "Required parameters: BucketName")
  /\ create Store.dumps Store.client nameless_event example_context
            (fresh (example_store None))
     = (Raise (Exception "Required parameters: BucketName"),
        fresh (example_store None))
  /\ delete Store.client nameless_event example_context (fresh (example_store None))
     = (Raise (Exception "Required parameters: BucketName"),
        fresh (example_store None)).
Proof.
  split; [reflexivity|].
  apply (missing_bucket_name_aborts Store.dumps Store.client nameless_event
           [("RequireEncryption", PStr "true")]);
    [reflexivity | left; reflexivity].
Defined.

(** C4 as first stated fails: an empty [BucketName] is not [None]:
    [get_params] returns it, [create] goes on to ask the client for the tags
    of the bucket [''], and [delete] to remove its policy; it is the client
    that refuses the name. *)
Lemma empty_bucket_name_is_accepted :
  subscript empty_name_event "ResourceProperties"
  = Ok (PDict [("BucketName", PStr "")])
  /\ get_params empty_name_event = Ok (PStr "", [], false)
  /\ create Store.dumps Store.client empty_name_event example_context
            (fresh no_buckets)
     = (Raise ParamValidationError,
        {| world := no_buckets; calls := [GetBucketTagging (PStr "")] |})
  /\ delete Store.client empty_name_event example_context (fresh no_buckets)
     = (Raise ParamValidationError,
        {| world := no_buckets; calls := [DeleteBucketPolicy (PStr "")] |}).
Proof. repeat split. Qed.

(** [delete] on a bucket that has a policy. *)
Lemma delete_follows_store_witness :
  delete Store.client delete_event example_context
         (fresh (example_store (Some "{}")))
  = (Ok (PStr "X"),
     {| world := example_store None;
        calls := [DeleteBucketPolicy (PStr "my-bucket")] |}).
Proof.
  apply (delete_follows_store Store.client delete_event example_properties
           (PStr "my-bucket") (PStr "X") example_context
           (fresh (example_store (Some "{}"))));
    reflexivity.
Defined.

(** C3 on the Update and Create events of the example. *)
Lemma create_physical_resource_id_witness :
  fst (create Store.dumps Store.client update_event example_context
              (fresh (example_store None)))
  = Ok (PStr "X")
  /\ fst (create Store.dumps Store.client create_event example_context
                 (fresh (example_store None)))
     = Ok (PStr "BucketPolicy_my-bucket_req-1")
  /\ occurs_in "my-bucket" "BucketPolicy_my-bucket_req-1".
Proof.
  split; [|split].
  - erewrite (proj1 (create_physical_resource_id Store.dumps Store.client
                       update_event example_properties (PStr "my-bucket") _ _
                       example_context (fresh (example_store None)) _ _
                       eq_refl eq_refl eq_refl eq_refl eq_refl eq_refl)
                    (PStr "X") eq_refl eq_refl).
    reflexivity.
  - erewrite (proj1 (proj2 (create_physical_resource_id Store.dumps Store.client
                              create_event example_properties (PStr "my-bucket") _ _
                              example_context (fresh (example_store None)) _ _
                              eq_refl eq_refl eq_refl eq_refl eq_refl eq_refl)
                           eq_refl)).
    reflexivity.
  - eapply (create_physical_resource_id Store.dumps Store.client create_event
              example_properties (PStr "my-bucket") _ _ example_context
              (fresh (example_store None)));
      reflexivity.
Defined.

(** C7 on a reply with an empty [TagSet], on tags without the key, and on
    tags with the key twice. *)
Lemma principal_resolution_witness :
  fst (get_bucket_tags empty_tag_set_client (PStr "my-bucket")
                       (fresh (example_store None)))
  = Raise (Exception "No tags returned, received: {'TagSet': []}")
  /\ create Store.dumps empty_tag_set_client create_event example_context
            (fresh (example_store None))
     = (Raise (Exception "No tags returned, received: {'TagSet': []}"),
        {| world := example_store None;
           calls := [GetBucketTagging (PStr "my-bucket")] |})
  /\ get_principal_tag (PList [Store.tag ("team", "storage")])
     = Raise (ValueError
                "Could not derive a value for aws:servicecatalog:provisioningPrincipalArn from tags")
  /\ get_principal_tag
       (PList [ Store.tag ("team", "storage");
                Store.tag (principal_tag_name, owner_arn);
                Store.tag (principal_tag_name, extra_arn) ])
     = Ok (PStr owner_arn).
Proof.
  destruct (principal_resolution Store.dumps empty_tag_set_client)
    as (Hempty & Hmissing & Hfirst & _).
  destruct (Hempty (PStr "my-bucket") (fresh (example_store None))
                   [("TagSet", PList [])] (example_store None) eq_refl
                   (or_intror (or_intror eq_refl))) as (Htags & Hcreate).
  split; [|split; [|split]].
  - exact (f_equal fst Htags).
  - exact (Hcreate create_event example_properties example_context
                   eq_refl eq_refl eq_refl).
  - apply (Hmissing [[("Key", PStr "team"); ("Value", PStr "storage")]]).
    repeat constructor; discriminate.
  - apply (Hfirst [[("Key", PStr "team"); ("Value", PStr "storage")]]
                  [[("Key", PStr principal_tag_name); ("Value", PStr extra_arn)]]
                  [("Key", PStr principal_tag_name); ("Value", PStr owner_arn)]);
      [repeat constructor; discriminate | reflexivity | reflexivity].
Defined.

(** ** Deleting a policy that is not there *)





(** * Further properties of the program *)

(** ** [get_params] *)

Lemma extra_principals_spec_truthy (raw : option pyval) :
  Forall (fun x => truthy x = true) (extra_principals_spec raw).
Proof.
  destruct raw as [v|]; [|constructor]. unfold extra_principals_spec.
  destruct (empty v) eqn:Hv; [constructor|].
  assert (Hone : Forall (fun x => truthy x = true) [v]).
  { constructor; [|constructor]. rewrite empty_not_truthy in Hv.
    now apply negb_false_iff in Hv. }
  destruct v; try exact Hone.
  rewrite filter_empty_truthy. apply Forall_forall. intros x Hx.
  now apply filter_In in Hx.
Qed.

Lemma filter_all_true {A} (f : A -> bool) (l : list A) :
  Forall (fun x => f x = true) l -> filter f l = l.
Proof.
  induction 1 as [|x l Hx _ IH]; [reflexivity|]. cbn. now rewrite Hx, IH.
Qed.

(** The whole of [get_params] by cases on the event. *)
Lemma get_params_by_cases (event : pyval) :
  get_params event
  = match event with
    | PDict d =>
        match dict_get d "ResourceProperties" with
        | None => Raise (KeyError "ResourceProperties")
        | Some (PDict parameters) =>
            match dict_get parameters "BucketName" with
            | None | Some PNone =>
                Raise (Exception "Required parameters: BucketName")
            | Some bucket_name =>
                Ok (bucket_name,
                    extra_principals_spec (dict_get parameters "ExtraPrincipalArns"),
                    require_encryption_spec (dict_get parameters "RequireEncryption"))
            end
        | Some _ => Raise AttributeError
        end
    | _ => Raise TypeError
    end.
Proof.
  destruct event as [ | | | | |d]; try reflexivity.
  destruct (dict_get d "ResourceProperties") as [properties|] eqn:Hev;
    [|unfold get_params; cbn; now rewrite Hev].
  destruct properties as [ | | | | |parameters];
    try (unfold get_params; cbn; now rewrite Hev).
  assert (Hsub : subscript (PDict d) "ResourceProperties" = Ok (PDict parameters))
    by (cbn; now rewrite Hev).
  destruct (dict_get parameters "BucketName") as [bucket_name|] eqn:Hname;
    [|unfold get_params; rewrite Hsub; cbn; now rewrite Hname].
  destruct bucket_name;
    try (apply (get_params_ok _ _ _ Hsub Hname); reflexivity).
  unfold get_params; rewrite Hsub; cbn; now rewrite Hname.
Qed.

Lemma get_params_result_from_spec (event bucket_name : pyval)
    (extras : list pyval) (flag : bool) :
  get_params event = Ok (bucket_name, extras, flag) ->
  is_none bucket_name = false
  /\ exists raw, extras = extra_principals_spec raw.
Proof.
  rewrite get_params_by_cases. intro H.
  destruct event as [ | | | | |d]; try discriminate H.
  destruct (dict_get d "ResourceProperties") as [[ | | | | |parameters]|];
    try discriminate H.
  destruct (dict_get parameters "BucketName") as [b|]; [|discriminate H].
  destruct b; try discriminate H; injection H as <- <- <-;
    (split; [reflexivity | eexists; reflexivity]).
Qed.

(** X1: [get_params] succeeds exactly when the event is a dict whose
    [ResourceProperties] is a dict with a [BucketName] that is not [None].
    Otherwise it raises, by the first check that fails: [TypeError] for an
    event that is not a dict, [KeyError('ResourceProperties')] for a missing
    key, [AttributeError] for properties that are not a dict, and
    [Exception('Required parameters: BucketName')]; it raises nothing
    else. *)
Theorem get_params_outcomes (event : pyval) :
  ((exists result, get_params event = Ok result)
   <-> exists d parameters bucket_name,
         event = PDict d
         /\ dict_get d "ResourceProperties" = Some (PDict parameters)
         /\ dict_get parameters "BucketName" = Some bucket_name
         /\ is_none bucket_name = false)
  /\ (forall e, get_params event = Raise e ->
        (e = TypeError /\ forall d, event <> PDict d)
        \/ (e = KeyError "ResourceProperties"
            /\ subscript event "ResourceProperties" = Raise e)
        \/ (e = AttributeError
            /\ exists properties,
                 subscript event "ResourceProperties" = Ok properties
                 /\ forall parameters, properties <> PDict parameters)
        \/ (e = Exception "Required parameters: BucketName"
            /\ exists parameters,
                 subscript event "ResourceProperties" = Ok (PDict parameters)
                 /\ (dict_get parameters "BucketName" = None
                     \/ dict_get parameters "BucketName" = Some PNone))).
Proof.
  rewrite get_params_by_cases. split.
  - split.
    + intros [result Hresult].
      destruct event as [ | | | | |d]; try discriminate Hresult.
      destruct (dict_get d "ResourceProperties") as [properties|] eqn:Hev;
        [|discriminate Hresult].
      destruct properties as [ | | | | |parameters]; try discriminate Hresult.
      destruct (dict_get parameters "BucketName") as [bucket_name|] eqn:Hname;
        [|discriminate Hresult].
      exists d, parameters, bucket_name. repeat split; try assumption.
      now destruct bucket_name.
    + intros (d & parameters & bucket_name & -> & -> & -> & Hnone).
      destruct bucket_name; try discriminate Hnone; eexists; reflexivity.
  - intros e He.
    destruct event as [ | | | | |d];
      try (left; split; [now injection He as <- | discriminate]).
    right. cbn [subscript].
    destruct (dict_get d "ResourceProperties") as [properties|];
      [|left; split; [now injection He as <- | now injection He as <-]].
    right.
    destruct properties as [ | | | | |parameters];
      try (left; split; [now injection He as <- |];
           eexists; split; [reflexivity | discriminate]).
    right.
    destruct (dict_get parameters "BucketName") as [bucket_name|] eqn:Hname.
    + destruct bucket_name; try discriminate He.
      split; [now injection He as <-|]. exists parameters. split; [reflexivity|].
      right; exact Hname.
    + split; [now injection He as <-|]. exists parameters. split; [reflexivity|].
      left; exact Hname.
Qed.

(** X3: what [get_params] returns is normalised: the bucket name is not
    [None], and no extra principal is an empty value. *)
Theorem get_params_returns_normalised (event : pyval) (bucket_name : pyval)
    (extras : list pyval) (flag : bool) :
  get_params event = Ok (bucket_name, extras, flag) ->
  is_none bucket_name = false
  /\ Forall (fun extra => truthy extra = true) extras.
Proof.
  intro H. destruct (get_params_result_from_spec _ _ _ _ H) as (Hnone & raw & ->).
  split; [exact Hnone | apply extra_principals_spec_truthy].
Qed.

(** X3 on the example event. *)
Lemma get_params_returns_normalised_witness :
  get_params create_event = Ok (PStr "my-bucket", [PStr extra_arn], true)
  /\ is_none (PStr "my-bucket") = false
  /\ Forall (fun extra => truthy extra = true) [PStr extra_arn].
Proof.
  split; [reflexivity|].
  apply (get_params_returns_normalised create_event (PStr "my-bucket")
           [PStr extra_arn] true).
  reflexivity.
Defined.

(** X4: validation is a fixed point on its own output.  Properties made of
    what [get_params] returned (the name, the list of extras, the flag as a
    boolean) validate to the same three values. *)
Theorem get_params_of_its_result (event : pyval) (bucket_name : pyval)
    (extras : list pyval) (flag : bool) :
  get_params event = Ok (bucket_name, extras, flag) ->
  get_params (event_with [ ("BucketName", bucket_name);
                           ("ExtraPrincipalArns", PList extras);
                           ("RequireEncryption", PBool flag) ])
  = Ok (bucket_name, extras, flag).
Proof.
  intro H.
  destruct (get_params_result_from_spec _ _ _ _ H) as (Hnone & raw & Hraw).
  assert (Hextras : Forall (fun extra => truthy extra = true) extras)
    by (rewrite Hraw; apply extra_principals_spec_truthy).
  rewrite (get_params_ok _ [ ("BucketName", bucket_name);
                             ("ExtraPrincipalArns", PList extras);
                             ("RequireEncryption", PBool flag) ] bucket_name);
    try reflexivity; [|exact Hnone].
  cbn [dict_get String.eqb Ascii.eqb Bool.eqb extra_principals_spec
       require_encryption_spec].
  assert (Hspec : (if empty (PList extras) then []
                   else filter (fun x => negb (empty x)) extras) = extras).
  { destruct extras as [|x extras']; [reflexivity|]. cbn [empty].
    rewrite filter_empty_truthy. now apply filter_all_true. }
  rewrite Hspec. now destruct flag.
Qed.

(** X4 on the example event. *)
Lemma get_params_of_its_result_witness :
  get_params create_event = Ok (PStr "my-bucket", [PStr extra_arn], true)
  /\ get_params (event_with [ ("BucketName", PStr "my-bucket");
                              ("ExtraPrincipalArns", PList [PStr extra_arn]);
                              ("RequireEncryption", PBool true) ])
     = Ok (PStr "my-bucket", [PStr extra_arn], true).
Proof.
  split; [reflexivity|].
  apply (get_params_of_its_result create_event). reflexivity.
Defined.

(** ** [get_principal_tag] and [combine_principals] *)

Lemma scan_skips_other_tags (before : list (list (string * pyval)))
    (rest : list pyval) :
  Forall (fun tag => dict_get tag "Key" <> Some (PStr principal_tag_name)) before ->
  scan_tags (map PDict before ++ rest) = scan_tags rest.
Proof.
  induction 1 as [|tag before Hkey _ IH]; [reflexivity|].
  cbn [map app scan_tags get rbind]. rewrite <- IH.
  destruct (dict_get tag "Key") as [[ | | |s| | ]|]; try reflexivity.
  cbn [eq_str]. destruct (String.eqb_spec s principal_tag_name) as [->|];
    [now contradiction Hkey | reflexivity].
Qed.

(** X5: the scan stops at the first tag with the principal key.  What comes
    after it is not looked at, whatever it is, and a matching tag without a
    [Value] gives [None] as the principal. *)
Theorem get_principal_tag_stops_at_first_match
    (before : list (list (string * pyval))) (tag : list (string * pyval))
    (after : list pyval) :
  Forall (fun tag => dict_get tag "Key" <> Some (PStr principal_tag_name)) before ->
  dict_get tag "Key" = Some (PStr principal_tag_name) ->
  get_principal_tag (PList (map PDict before ++ PDict tag :: after))
  = Ok (match dict_get tag "Value" with Some value => value | None => PNone end).
Proof.
  intros Hbefore Hkey. unfold get_principal_tag; cbn [iter rbind].
  rewrite (scan_skips_other_tags _ _ Hbefore).
  cbn [scan_tags get rbind]. rewrite Hkey. cbn [eq_str].
  now rewrite String.eqb_refl.
Qed.

(** X5 on tags followed by values that are not tags at all. *)
Lemma get_principal_tag_stops_at_first_match_witness :
  get_principal_tag
    (PList [ Store.tag ("team", "storage");
             PDict [("Key", PStr principal_tag_name)];
             PInt 7; PStr "not a tag" ])
  = Ok PNone.
Proof.
  apply (get_principal_tag_stops_at_first_match
           [[("Key", PStr "team"); ("Value", PStr "storage")]]
           [("Key", PStr principal_tag_name)]
           [PInt 7; PStr "not a tag"]);
    [repeat constructor; discriminate | reflexivity].
Defined.

(** X6: an item that is not a dict, met before any tag with the principal
    key, ends the scan with [AttributeError], even when a later tag has the
    key. *)
Theorem get_principal_tag_rejects_malformed_item
    (before : list (list (string * pyval))) (item : pyval) (after : list pyval) :
  Forall (fun tag => dict_get tag "Key" <> Some (PStr principal_tag_name)) before ->
  (forall d, item <> PDict d) ->
  get_principal_tag (PList (map PDict before ++ item :: after))
  = Raise AttributeError.
Proof.
  intros Hbefore Hitem. unfold get_principal_tag; cbn [iter rbind].
  rewrite (scan_skips_other_tags _ _ Hbefore).
  destruct item as [ | | | | |d]; try reflexivity.
  now contradiction (Hitem d).
Qed.

(** X6 on a string placed before the owner's tag. *)
Lemma get_principal_tag_rejects_malformed_item_witness :
  get_principal_tag
    (PList [ Store.tag ("team", "storage"); PStr "oops";
             Store.tag (principal_tag_name, owner_arn) ])
  = Raise AttributeError.
Proof.
  apply (get_principal_tag_rejects_malformed_item
           [[("Key", PStr "team"); ("Value", PStr "storage")]]
           (PStr "oops")
           [Store.tag (principal_tag_name, owner_arn)]);
    [repeat constructor; discriminate | discriminate].
Defined.

(** X7: [combine_principals] with [None] for the extras returns the
    one-element list of the principal; it fails, with [TypeError], exactly
    when the extras are neither [None] nor a list; and whenever it succeeds
    the result is a list that ends with the principal. *)
Theorem combine_principals_outcomes (principal extra_principals : pyval) :
  combine_principals principal PNone = Ok (PList [principal])
  /\ (combine_principals principal extra_principals = Raise TypeError
      <-> is_none extra_principals = false /\ is_list extra_principals = false)
  /\ (forall e, combine_principals principal extra_principals = Raise e ->
        e = TypeError)
  /\ (forall principals,
        combine_principals principal extra_principals = Ok principals ->
        exists front, principals = PList (front ++ [principal])).
Proof.
  split; [reflexivity|]. split; [|split].
  - destruct extra_principals; cbn; split;
      try (intros [H1 H2]; discriminate H1 || discriminate H2);
      try discriminate; auto.
  - intros e. destruct extra_principals; cbn; intro H;
      try discriminate H; now injection H as <-.
  - intros principals. destruct extra_principals as [ | | | |l| ]; cbn; intro H;
      try discriminate H; injection H as <-.
    + now exists [].
    + now exists l.
Qed.

(** ** [create_policy_document] *)

(** X8: whatever the bucket name, the principals and the flag, every
    statement of the document grants to, or denies, exactly the principals
    given, on the bucket itself or on its objects and on nothing else; the
    statements with a condition are the Deny statements, and those deny
    [s3:PutObject] only. *)
Theorem policy_statements_stay_in_scope (bucket_name principals : pyval)
    (require_encrypted : bool) :
  Forall
    (fun statement =>
       field "Principal" statement = Some (PDict [("AWS", principals)])
       /\ (field "Resource" statement
           = Some (PStr ("arn:aws:s3:::" ++ str bucket_name))
           \/ field "Resource" statement
              = Some (PStr (("arn:aws:s3:::" ++ str bucket_name) ++ "/*")))
       /\ ((field "Effect" statement = Some (PStr "Allow")
            /\ field "Condition" statement = None)
           \/ (field "Effect" statement = Some (PStr "Deny")
               /\ field "Action" statement = Some (PStr "s3:PutObject")
               /\ exists condition, field "Condition" statement = Some condition)))
    (statements_of (policy_document bucket_name principals require_encrypted)).
Proof.
  destruct require_encrypted; unfold policy_document;
    cbn [statements_of dict_get String.eqb Ascii.eqb Bool.eqb app];
    repeat (apply Forall_cons || apply Forall_nil);
    (split; [reflexivity|]); (split; [(left; reflexivity) || (right; reflexivity)|]);
    first [ left; split; reflexivity
          | right; split; [reflexivity|]; split; [reflexivity|];
            eexists; reflexivity ].
Qed.

(** X9: the document keeps its inputs apart: two calls with string bucket
    names build the same document only from the same bucket name, the same
    principals and the same flag. *)
Theorem policy_document_injective (bucket1 bucket2 : string)
    (principals1 principals2 : pyval) (flag1 flag2 : bool) :
  policy_document (PStr bucket1) principals1 flag1
  = policy_document (PStr bucket2) principals2 flag2 ->
  bucket1 = bucket2 /\ principals1 = principals2 /\ flag1 = flag2.
Proof.
  unfold policy_document. cbn [str append].
  destruct flag1, flag2; cbn [app]; intro H; inversion H; auto.
Qed.

(** X9 on the example document. *)
Lemma policy_document_injective_witness :
  "my-bucket" = "my-bucket" /\ PList [PStr owner_arn] = PList [PStr owner_arn]
  /\ true = true.
Proof.
  apply (policy_document_injective "my-bucket" "my-bucket"
           (PList [PStr owner_arn]) (PList [PStr owner_arn]) true true).
  reflexivity.
Defined.

Example policy_documents_differ :
  Store.dumps (policy_document (PStr "a") (PList [PStr "p"]) false)
  <> Store.dumps (policy_document (PStr "b") (PList [PStr "p"]) false).
Proof. discriminate. Qed.

(** ** The calls the handlers make *)

Section Effects.

Variable json_dumps : pyval -> string.
Context {W : Type}.
Variable s3 : S3Client W.

Lemma get_bucket_tags_state (bucket : pyval) (st : state W) :
  snd (get_bucket_tags s3 bucket st)
  = {| world := snd (get_bucket_tagging s3 bucket (world st));
       calls := calls st ++ [GetBucketTagging bucket] |}.
Proof.
  unfold get_bucket_tags; run_monad.
  destruct (get_bucket_tagging s3 bucket (world st)) as [[response|e] w1];
    [|reflexivity].
  destruct (get response "TagSet" PNone) as [tags|e]; [|reflexivity].
  destruct (negb (truthy tags)); [reflexivity|].
  destruct (len tags) as [n|e]; [|reflexivity].
  now destruct (n =? 0)%nat.
Qed.

Lemma attach_policy_state (bucket : pyval) (document : string) (st : state W) :
  snd (attach_policy s3 bucket document st)
  = {| world := snd (put_bucket_policy s3 bucket document (world st));
       calls := calls st ++ [PutBucketPolicy bucket document] |}.
Proof.
  unfold attach_policy; run_monad.
  now destruct (put_bucket_policy s3 bucket document (world st)) as [[reply|e] w1].
Qed.

Lemma attach_policy_result (bucket : pyval) (document : string) (st : state W) :
  fst (attach_policy s3 bucket document st)
  = match fst (put_bucket_policy s3 bucket document (world st)) with
    | Ok _ => Ok tt
    | Raise e => Raise e
    end.
Proof.
  unfold attach_policy; run_monad.
  now destruct (put_bucket_policy s3 bucket document (world st)) as [[reply|e] w1].
Qed.

(** X10: [get_bucket_tags] makes one call, [get_bucket_tagging] on the
    bucket, whatever comes of it.  An exception of the client leaves the
    function unchanged.  What the function returns is the [TagSet] of the
    reply, and it is never an empty value: the second test of line 58,
    [len(tags) == 0], never decides. *)
Theorem get_bucket_tags_outcomes (bucket : pyval) (st : state W) :
  snd (get_bucket_tags s3 bucket st)
  = {| world := snd (get_bucket_tagging s3 bucket (world st));
       calls := calls st ++ [GetBucketTagging bucket] |}
  /\ (forall e,
        fst (get_bucket_tagging s3 bucket (world st)) = Raise e ->
        fst (get_bucket_tags s3 bucket st) = Raise e)
  /\ (forall tags,
        fst (get_bucket_tags s3 bucket st) = Ok tags ->
        truthy tags = true
        /\ exists response,
             fst (get_bucket_tagging s3 bucket (world st)) = Ok (PDict response)
             /\ dict_get response "TagSet" = Some tags)
  /\ (forall response tag tags,
        fst (get_bucket_tagging s3 bucket (world st)) = Ok (PDict response) ->
        dict_get response "TagSet" = Some (PList (tag :: tags)) ->
        fst (get_bucket_tags s3 bucket st) = Ok (PList (tag :: tags))).
Proof.
  split; [apply get_bucket_tags_state|].
  unfold get_bucket_tags; run_monad.
  destruct (get_bucket_tagging s3 bucket (world st)) as [[response|e] w1];
    cbn [fst]; (split; [|split]).
  - discriminate.
  - intros tags.
    destruct response as [ | | | | |d]; try discriminate. cbn [get].
    destruct (dict_get d "TagSet") as [v|] eqn:Hget; [|discriminate]. cbn [fst].
    destruct (truthy v) eqn:Hv; cbn [negb fst]; [|discriminate].
    destruct v as [ |[|]|z|s|l|d']; cbn [len fst]; try discriminate.
    + destruct s; [discriminate Hv|]. cbn. intro H; injection H as <-.
      split; [reflexivity|]. now exists d.
    + destruct l; [discriminate Hv|]. cbn. intro H; injection H as <-.
      split; [reflexivity|]. now exists d.
    + destruct d'; [discriminate Hv|]. cbn. intro H; injection H as <-.
      split; [reflexivity|]. now exists d.
  - intros d tag tags H Hget. injection H as ->. cbn [get]. now rewrite Hget.
  - intros e' H. now injection H as <-.
  - discriminate.
  - discriminate.
Qed.

(** What [create] has done to the state when it ends: nothing if validation
    failed; otherwise what its steps up to [attach_policy] did. *)
Lemma create_state (event : pyval) (context : LambdaContext) (st : state W) :
  snd (create json_dumps s3 event context st)
  = match get_params event with
    | Raise _ => st
    | Ok (bucket_name, extras, flag) =>
        match get_bucket_tags s3 bucket_name st with
        | (Raise _, st1) => st1
        | (Ok tags, st1) =>
            match get_principal_tag tags with
            | Raise _ => st1
            | Ok owner =>
                snd (attach_policy s3 bucket_name
                       (create_policy_document json_dumps bucket_name
                          (PList (extras ++ [owner])) flag)
                       st1)
            end
        end
    end.
Proof.
  unfold create; run_monad.
  destruct (get_params event) as [[[bucket_name extras] flag]|e]; [|reflexivity].
  destruct (get_bucket_tags s3 bucket_name st) as [[tags|e] st1]; [|reflexivity].
  destruct (get_principal_tag tags) as [owner|e]; [|reflexivity].
  cbn [combine_principals is_none negb add].
  destruct (attach_policy s3 bucket_name _ st1) as [[u|e] st2]; [|reflexivity].
  cbn [snd]. destruct (subscript event "RequestType") as [rt|e]; [|reflexivity].
  destruct (eq_str rt "Update"); [|reflexivity].
  now destruct (subscript event "PhysicalResourceId").
Qed.

(** X2: a failure of validation is the failure of the handler, and nothing
    has been asked of the store: when [get_params] raises, [create] and
    [delete] raise the same exception in the state they started in. *)
Theorem validation_failure_makes_no_call (event : pyval) (e : exn)
    (context : LambdaContext) (st : state W) :
  get_params event = Raise e ->
  create json_dumps s3 event context st = (Raise e, st)
  /\ delete s3 event context st = (Raise e, st).
Proof.
  intro H. unfold create, delete; run_monad. now rewrite H.
Qed.

(** X11: the calls of [create] are, in order, at most one
    [get_bucket_tagging] and then at most one [put_bucket_policy], both on
    the bucket named in the properties; it never calls
    [delete_bucket_policy].  When it returns a physical id, both calls were
    made and the put succeeded. *)
Theorem create_call_sequence (event : pyval) (context : LambdaContext)
    (st : state W) :
  exists trace,
    calls (snd (create json_dumps s3 event context st)) = (calls st ++ trace)%list
    /\ (trace = []
        \/ exists bucket_name extras flag,
             get_params event = Ok (bucket_name, extras, flag)
             /\ (trace = [GetBucketTagging bucket_name]
                 \/ exists document,
                      trace = [ GetBucketTagging bucket_name;
                                PutBucketPolicy bucket_name document ]
                      /\ (forall id,
                            fst (create json_dumps s3 event context st) = Ok id ->
                            exists reply,
                              fst (put_bucket_policy s3 bucket_name document
                                     (snd (get_bucket_tagging s3 bucket_name
                                             (world st))))
                              = Ok reply)))
    /\ (forall id,
          fst (create json_dumps s3 event context st) = Ok id ->
          List.length trace = 2).
Proof.
  rewrite create_state. unfold create; run_monad.
  destruct (get_params event) as [[[bucket_name extras] flag]|e];
    [|exists []; rewrite app_nil_r; repeat split; auto; discriminate].
  pose proof (get_bucket_tags_state bucket_name st) as Hst1.
  destruct (get_bucket_tags s3 bucket_name st) as [[tags|e] st1]; cbn [snd] in Hst1;
    pose proof (f_equal world Hst1) as Hworld; cbn [world] in Hworld;
    apply (f_equal calls) in Hst1; cbn [calls] in Hst1;
    [|exists [GetBucketTagging bucket_name]; rewrite Hst1;
      split; [reflexivity|]; split; [|discriminate];
      right; exists bucket_name, extras, flag; auto].
  destruct (get_principal_tag tags) as [owner|e];
    [|exists [GetBucketTagging bucket_name]; rewrite Hst1;
      split; [reflexivity|]; split; [|discriminate];
      right; exists bucket_name, extras, flag; auto].
  cbn [combine_principals is_none negb add].
  set (document := create_policy_document json_dumps bucket_name
                     (PList (extras ++ [owner])) flag).
  pose proof (attach_policy_state bucket_name document st1) as Hst2.
  pose proof (attach_policy_result bucket_name document st1) as Hres.
  exists [GetBucketTagging bucket_name; PutBucketPolicy bucket_name document].
  rewrite Hst2; cbn [calls]. rewrite Hst1, <- app_assoc.
  split; [reflexivity|]. split; [|reflexivity].
  right. exists bucket_name, extras, flag. split; [reflexivity|].
  right. exists document. split; [reflexivity|].
  intros id Hid.
  destruct (attach_policy s3 bucket_name document st1) as [[u|e] st2];
    [|discriminate Hid].
  cbn [fst] in Hres.
  destruct (put_bucket_policy s3 bucket_name document (world st1))
    as [[reply|e] w2] eqn:Hput; [|discriminate Hres].
  exists reply. now rewrite <- Hworld, Hput.
Qed.

(** X12: [delete] makes at most one call, [delete_bucket_policy] on the
    bucket named in the properties: it reads no tags and attaches nothing.
    When it returns, that call was made and succeeded, and what it returns
    is the [PhysicalResourceId] of the event. *)
Theorem delete_call_sequence (event : pyval) (context : LambdaContext)
    (st : state W) :
  exists trace,
    calls (snd (delete s3 event context st)) = (calls st ++ trace)%list
    /\ (trace = []
        \/ exists bucket_name extras flag,
             get_params event = Ok (bucket_name, extras, flag)
             /\ trace = [DeleteBucketPolicy bucket_name])
    /\ (forall id,
          fst (delete s3 event context st) = Ok id ->
          subscript event "PhysicalResourceId" = Ok id
          /\ exists bucket_name reply,
               trace = [DeleteBucketPolicy bucket_name]
               /\ fst (delete_bucket_policy s3 bucket_name (world st)) = Ok reply).
Proof.
  unfold delete; run_monad.
  destruct (get_params event) as [[[bucket_name extras] flag]|e];
    [|exists []; rewrite app_nil_r; repeat split; auto; discriminate].
  exists [DeleteBucketPolicy bucket_name].
  destruct (delete_bucket_policy s3 bucket_name (world st)) as [[reply|e] w1]
    eqn:Hdelete; cbn [fst snd calls].
  - destruct (subscript event "PhysicalResourceId") as [prior|e]; cbn [fst snd calls].
    + split; [reflexivity|]. split; [right; exists bucket_name, extras, flag; auto|].
      intros id H; injection H as <-. split; [reflexivity|].
      exists bucket_name, reply. now rewrite Hdelete.
    + split; [reflexivity|]. split; [right; exists bucket_name, extras, flag; auto|].
      discriminate.
  - split; [reflexivity|]. split; [right; exists bucket_name, extras, flag; auto|].
    discriminate.
Qed.

(** X13: what [create] does to the store depends on the event through its
    [ResourceProperties] only: two events with the same properties, whatever
    their [RequestType], [PhysicalResourceId] and context, leave the same
    state and the same calls behind.  An Update is a Create over again. *)
Theorem create_effect_ignores_request_type (event1 event2 : pyval)
    (context1 context2 : LambdaContext) (st : state W) :
  subscript event1 "ResourceProperties" = subscript event2 "ResourceProperties" ->
  snd (create json_dumps s3 event1 context1 st)
  = snd (create json_dumps s3 event2 context2 st).
Proof.
  intro H. rewrite !create_state.
  assert (Hparams : get_params event1 = get_params event2)
    by (unfold get_params; now rewrite H).
  now rewrite Hparams.
Qed.

(** X14: [create] stops at the first step that fails, with that step's
    exception and without the later calls: an exception of
    [get_bucket_tagging] ends it after that one call; a failed principal
    scan ends it with no [put_bucket_policy]; an exception of
    [put_bucket_policy] ends it after the two calls. *)
Theorem create_stops_at_first_failure (event : pyval)
    (parameters : list (string * pyval)) (bucket_name : pyval)
    (context : LambdaContext) (st : state W) :
  subscript event "ResourceProperties" = Ok (PDict parameters) ->
  dict_get parameters "BucketName" = Some bucket_name ->
  is_none bucket_name = false ->
  (forall e w1,
      get_bucket_tagging s3 bucket_name (world st) = (Raise e, w1) ->
      create json_dumps s3 event context st
      = (Raise e,
         {| world := w1; calls := calls st ++ [GetBucketTagging bucket_name] |}))
  /\ (forall tags st1 e,
        get_bucket_tags s3 bucket_name st = (Ok tags, st1) ->
        get_principal_tag tags = Raise e ->
        create json_dumps s3 event context st = (Raise e, st1))
  /\ (forall tags st1 owner e w2,
        get_bucket_tags s3 bucket_name st = (Ok tags, st1) ->
        get_principal_tag tags = Ok owner ->
        put_bucket_policy s3 bucket_name
          (create_policy_document json_dumps bucket_name
             (PList (extra_principals_spec (dict_get parameters "ExtraPrincipalArns")
                     ++ [owner]))
             (require_encryption_spec (dict_get parameters "RequireEncryption")))
          (world st1) = (Raise e, w2) ->
        create json_dumps s3 event context st
        = (Raise e,
           {| world := w2;
              calls := calls st1
                       ++ [PutBucketPolicy bucket_name
                             (create_policy_document json_dumps bucket_name
                                (PList (extra_principals_spec
                                          (dict_get parameters "ExtraPrincipalArns")
                                        ++ [owner]))
                                (require_encryption_spec
                                   (dict_get parameters "RequireEncryption")))] |})).
Proof.
  intros Hev Hname Hnone.
  pose proof (get_params_ok _ _ _ Hev Hname Hnone) as Hparams.
  split; [|split].
  - intros e w1 Hreply. unfold create, get_bucket_tags; run_monad.
    now rewrite Hparams, Hreply.
  - intros tags st1 e Htags Hscan. unfold create; run_monad.
    now rewrite Hparams, Htags, Hscan.
  - intros tags st1 owner e w2 Htags Hscan Hput. unfold create; run_monad.
    rewrite Hparams, Htags, Hscan. cbn [combine_principals is_none negb add].
    unfold attach_policy; run_monad. now rewrite Hput.
Qed.

(** X15: the handlers read the event's [RequestType] and
    [PhysicalResourceId] last.  When the key is missing the handler raises
    the [KeyError] only after its work on the store is done: [create] has
    attached the policy, [delete] has removed it. *)
Theorem missing_event_key_fails_after_the_work (event : pyval)
    (parameters : list (string * pyval)) (bucket_name : pyval)
    (context : LambdaContext) (st : state W) :
  subscript event "ResourceProperties" = Ok (PDict parameters) ->
  dict_get parameters "BucketName" = Some bucket_name ->
  is_none bucket_name = false ->
  (forall tags st1 owner reply w2,
      get_bucket_tags s3 bucket_name st = (Ok tags, st1) ->
      get_principal_tag tags = Ok owner ->
      put_bucket_policy s3 bucket_name
        (create_policy_document json_dumps bucket_name
           (PList (extra_principals_spec (dict_get parameters "ExtraPrincipalArns")
                   ++ [owner]))
           (require_encryption_spec (dict_get parameters "RequireEncryption")))
        (world st1) = (Ok reply, w2) ->
      forall key,
        (key = "RequestType"
         \/ (key = "PhysicalResourceId"
             /\ subscript event "RequestType" = Ok (PStr "Update"))) ->
        subscript event key = Raise (KeyError key) ->
        create json_dumps s3 event context st
        = (Raise (KeyError key),
           {| world := w2;
              calls := calls st1
                       ++ [PutBucketPolicy bucket_name
                             (create_policy_document json_dumps bucket_name
                                (PList (extra_principals_spec
                                          (dict_get parameters "ExtraPrincipalArns")
                                        ++ [owner]))
                                (require_encryption_spec
                                   (dict_get parameters "RequireEncryption")))] |}))
  /\ (forall reply w1,
        delete_bucket_policy s3 bucket_name (world st) = (Ok reply, w1) ->
        subscript event "PhysicalResourceId" = Raise (KeyError "PhysicalResourceId") ->
        delete s3 event context st
        = (Raise (KeyError "PhysicalResourceId"),
           {| world := w1;
              calls := calls st ++ [DeleteBucketPolicy bucket_name] |})).
Proof.
  intros Hev Hname Hnone.
  pose proof (get_params_ok _ _ _ Hev Hname Hnone) as Hparams.
  split.
  - intros tags st1 owner reply w2 Htags Hscan Hput key Hkey Hmissing.
    unfold create; run_monad.
    rewrite Hparams, Htags, Hscan. cbn [combine_principals is_none negb add].
    unfold attach_policy; run_monad. rewrite Hput.
    destruct Hkey as [-> | [-> Hupdate]].
    + now rewrite Hmissing.
    + rewrite Hupdate. cbn [eq_str String.eqb Ascii.eqb Bool.eqb].
      now rewrite Hmissing.
  - intros reply w1 Hdelete Hmissing. unfold delete; run_monad.
    now rewrite Hparams, Hdelete, Hmissing.
Qed.

(** X16: what [create] attaches is the document for the bucket's own owner.
    When the reply to [get_bucket_tagging] lists a tag with the principal
    key, [create] calls [put_bucket_policy] once, on the same bucket, with
    [create_policy_document] of that bucket, of the validated extras followed
    by the value of the first such tag, and of the validated flag; these two
    calls are all it does. *)
Theorem create_attaches_policy_for_owner (event : pyval)
    (parameters : list (string * pyval)) (bucket_name owner : pyval)
    (context : LambdaContext) (st : state W)
    (reply : list (string * pyval)) (w1 : W)
    (before : list (list (string * pyval))) (tag : list (string * pyval))
    (after : list pyval) :
  subscript event "ResourceProperties" = Ok (PDict parameters) ->
  dict_get parameters "BucketName" = Some bucket_name ->
  is_none bucket_name = false ->
  get_bucket_tagging s3 bucket_name (world st) = (Ok (PDict reply), w1) ->
  dict_get reply "TagSet" = Some (PList (map PDict before ++ PDict tag :: after)) ->
  Forall (fun tag => dict_get tag "Key" <> Some (PStr principal_tag_name)) before ->
  dict_get tag "Key" = Some (PStr principal_tag_name) ->
  dict_get tag "Value" = Some owner ->
  snd (create json_dumps s3 event context st)
  = {| world :=
         snd (put_bucket_policy s3 bucket_name
                (create_policy_document json_dumps bucket_name
                   (PList (extra_principals_spec
                             (dict_get parameters "ExtraPrincipalArns")
                           ++ [owner]))
                   (require_encryption_spec (dict_get parameters "RequireEncryption")))
                w1);
       calls :=
         calls st
         ++ [ GetBucketTagging bucket_name;
              PutBucketPolicy bucket_name
                (create_policy_document json_dumps bucket_name
                   (PList (extra_principals_spec
                             (dict_get parameters "ExtraPrincipalArns")
                           ++ [owner]))
                   (require_encryption_spec
                      (dict_get parameters "RequireEncryption"))) ] |}.
Proof.
  intros Hev Hname Hnone Hreply Htagset Hbefore Hkey Hvalue.
  rewrite create_state, (get_params_ok _ _ _ Hev Hname Hnone).
  assert (Htags :
    get_bucket_tags s3 bucket_name st
    = (Ok (PList (map PDict before ++ PDict tag :: after)),
       {| world := w1; calls := calls st ++ [GetBucketTagging bucket_name] |})).
  { unfold get_bucket_tags; run_monad. rewrite Hreply. cbn [get]. rewrite Htagset.
    destruct before; reflexivity. }
  rewrite Htags.
  assert (Hscan :
    get_principal_tag (PList (map PDict before ++ PDict tag :: after)) = Ok owner).
  { unfold get_principal_tag; cbn [iter rbind].
    rewrite (scan_skips_other_tags _ _ Hbefore).
    cbn [scan_tags get rbind]. rewrite Hkey, Hvalue. cbn [eq_str].
    now rewrite String.eqb_refl. }
  rewrite Hscan, attach_policy_state. cbn [world calls].
  now rewrite <- app_assoc.
Qed.

End Effects.

(** ** The physical id of a created resource *)

Lemma contains_middle (c : ascii) (front back : string) :
  contains c (front ++ String c back) = true.
Proof.
  induction front as [|c' front IH]; cbn.
  - now rewrite Ascii.eqb_refl.
  - rewrite IH. apply orb_true_r.
Qed.

Lemma split_at_last_separator (c : ascii) (front1 front2 back1 back2 : string) :
  contains c back1 = false ->
  contains c back2 = false ->
  front1 ++ String c back1 = front2 ++ String c back2 ->
  front1 = front2 /\ back1 = back2.
Proof.
  intros H1 H2. revert front2.
  induction front1 as [|a front1 IH]; intros [|b front2]; cbn; intro H.
  - injection H as ->. now split.
  - injection H as <- ->. now rewrite contains_middle in H1.
  - injection H as -> <-. now rewrite contains_middle in H2.
  - injection H as -> H. destruct (IH _ H) as [-> ->]. now split.
Qed.

Section Identity.

Variable json_dumps : pyval -> string.
Context {W : Type}.
Variable s3 : S3Client W.

Lemma create_result_of_create (event bucket_name : pyval) (extras : list pyval)
    (flag : bool) (context : LambdaContext) (st : state W) (id : pyval) :
  subscript event "RequestType" = Ok (PStr "Create") ->
  get_params event = Ok (bucket_name, extras, flag) ->
  fst (create json_dumps s3 event context st) = Ok id ->
  id = PStr ("BucketPolicy_" ++ str bucket_name ++ "_" ++ aws_request_id context).
Proof.
  intros Htype Hparams. unfold create; run_monad. rewrite Hparams.
  destruct (get_bucket_tags s3 bucket_name st) as [[tags|e] st1];
    [|discriminate].
  destruct (get_principal_tag tags) as [owner|e]; [|discriminate].
  cbn [combine_principals is_none negb add].
  destruct (attach_policy s3 bucket_name _ st1) as [[u|e] st2]; [|discriminate].
  rewrite Htype. cbn. intro H. now injection H as <-.
Qed.

(** X17: the physical id of a Create tells the request apart.  When two
    Create events with string bucket names both succeed and return the same
    id, and neither request id contains an underscore (Lambda's are UUIDs),
    then the bucket names are equal and the request ids are equal. *)
Theorem created_ids_identify_the_request (event1 event2 : pyval)
    (bucket1 bucket2 : string) (extras1 extras2 : list pyval)
    (flag1 flag2 : bool) (context1 context2 : LambdaContext)
    (st1 st2 : state W) (id : pyval) :
  subscript event1 "RequestType" = Ok (PStr "Create") ->
  subscript event2 "RequestType" = Ok (PStr "Create") ->
  get_params event1 = Ok (PStr bucket1, extras1, flag1) ->
  get_params event2 = Ok (PStr bucket2, extras2, flag2) ->
  contains "_" (aws_request_id context1) = false ->
  contains "_" (aws_request_id context2) = false ->
  fst (create json_dumps s3 event1 context1 st1) = Ok id ->
  fst (create json_dumps s3 event2 context2 st2) = Ok id ->
  bucket1 = bucket2 /\ aws_request_id context1 = aws_request_id context2.
Proof.
  intros Htype1 Htype2 Hparams1 Hparams2 Hid1 Hid2 Hrun1 Hrun2.
  apply (create_result_of_create _ _ _ _ _ _ _ Htype1 Hparams1) in Hrun1.
  apply (create_result_of_create _ _ _ _ _ _ _ Htype2 Hparams2) in Hrun2.
  rewrite Hrun1 in Hrun2. cbn [str] in Hrun2. injection Hrun2 as Heq.
  now apply (split_at_last_separator "_"%char).
Qed.

End Identity.

(** X17 on the example event, run twice. *)
Lemma created_ids_identify_the_request_witness :
  contains "_" (aws_request_id example_context) = false
  /\ fst (create Store.dumps Store.client create_event example_context
                 (fresh (example_store None)))
     = Ok (PStr "BucketPolicy_my-bucket_req-1")
  /\ "my-bucket" = "my-bucket"
  /\ aws_request_id example_context = aws_request_id example_context.
Proof.
  split; [reflexivity|]. split; [reflexivity|].
  apply (created_ids_identify_the_request Store.dumps Store.client
           create_event create_event "my-bucket" "my-bucket"
           [PStr extra_arn] [PStr extra_arn] true true
           example_context example_context
           (fresh (example_store None)) (fresh (example_store None))
           (PStr "BucketPolicy_my-bucket_req-1"));
    reflexivity.
Defined.

(** With an underscore in the request id the same id can come from two
    buckets. *)
Example created_ids_can_collide :
  fst (create Store.dumps Store.client
              (event_with [("BucketName", PStr "a_b")])
              {| aws_request_id := "c" |} (fresh underscore_store))
  = Ok (PStr "BucketPolicy_a_b_c")
  /\ fst (create Store.dumps Store.client
                 (event_with [("BucketName", PStr "a")])
                 {| aws_request_id := "b_c" |} (fresh underscore_store))
     = Ok (PStr "BucketPolicy_a_b_c").
Proof. split; reflexivity. Qed.

(** ** The further properties on the example store *)

(** X2 on an event that has no [ResourceProperties]. *)
Lemma validation_failure_makes_no_call_witness :
  get_params bare_event = Raise (KeyError "ResourceProperties")
  /\ create Store.dumps Store.client bare_event example_context
            (fresh (example_store None))
     = (Raise (KeyError "ResourceProperties"), fresh (example_store None))
  /\ delete Store.client bare_event example_context (fresh (example_store None))
     = (Raise (KeyError "ResourceProperties"), fresh (example_store None)).
Proof.
  split; [reflexivity|].
  apply (validation_failure_makes_no_call Store.dumps Store.client bare_event).
  reflexivity.
Defined.

(** X13 on the Create and Update events of the example. *)
Lemma create_effect_ignores_request_type_witness :
  snd (create Store.dumps Store.client create_event example_context
              (fresh (example_store None)))
  = snd (create Store.dumps Store.client update_event
                {| aws_request_id := "req-2" |} (fresh (example_store None))).
Proof.
  apply (create_effect_ignores_request_type Store.dumps Store.client
           create_event update_event).
  reflexivity.
Defined.

(** X14 on a store without the bucket, on a bucket without the principal
    tag, and on a store that refuses the policy. *)
Lemma create_stops_at_first_failure_witness :
  create Store.dumps Store.client create_event example_context (fresh no_buckets)
  = (Raise Store.no_such_bucket,
     {| world := no_buckets; calls := [GetBucketTagging (PStr "my-bucket")] |})
  /\ create Store.dumps Store.client create_event example_context
            (fresh unowned_store)
     = (Raise (ValueError
                 "Could not derive a value for aws:servicecatalog:provisioningPrincipalArn from tags"),
        {| world := unowned_store;
           calls := [GetBucketTagging (PStr "my-bucket")] |})
  /\ fst (create Store.dumps read_only_client create_event example_context
                 (fresh (example_store None)))
     = Raise (ClientError "AccessDenied" "Access Denied")
  /\ List.length
       (calls (snd (create Store.dumps read_only_client create_event
                           example_context (fresh (example_store None)))))
     = 2.
Proof.
  split; [|split; [|split]].
  - apply (proj1 (create_stops_at_first_failure Store.dumps Store.client
                    create_event example_properties (PStr "my-bucket")
                    example_context (fresh no_buckets)
                    eq_refl eq_refl eq_refl)).
    reflexivity.
  - eapply (proj1 (proj2 (create_stops_at_first_failure Store.dumps Store.client
                            create_event example_properties (PStr "my-bucket")
                            example_context (fresh unowned_store)
                            eq_refl eq_refl eq_refl)));
      reflexivity.
  - erewrite (proj2 (proj2 (create_stops_at_first_failure Store.dumps
                              read_only_client
                              create_event example_properties (PStr "my-bucket")
                              example_context (fresh (example_store None))
                              eq_refl eq_refl eq_refl))
                    _ _ _ _ _ eq_refl eq_refl eq_refl).
    reflexivity.
  - reflexivity.
Defined.

(** X15 on an event that has only its [ResourceProperties]. *)
Lemma missing_event_key_fails_after_the_work_witness :
  fst (create Store.dumps Store.client untyped_event example_context
              (fresh (example_store None)))
  = Raise (KeyError "RequestType")
  /\ List.length
       (calls (snd (create Store.dumps Store.client untyped_event example_context
                           (fresh (example_store None)))))
     = 2
  /\ delete Store.client untyped_event example_context
            (fresh (example_store (Some "{}")))
     = (Raise (KeyError "PhysicalResourceId"),
        {| world := example_store None;
           calls := [DeleteBucketPolicy (PStr "my-bucket")] |}).
Proof.
  split; [|split].
  - erewrite (proj1 (missing_event_key_fails_after_the_work Store.dumps Store.client
                       untyped_event example_properties (PStr "my-bucket")
                       example_context (fresh (example_store None))
                       eq_refl eq_refl eq_refl)
                    _ _ _ _ _ eq_refl eq_refl eq_refl
                    "RequestType" (or_introl eq_refl) eq_refl).
    reflexivity.
  - reflexivity.
  - eapply (proj2 (missing_event_key_fails_after_the_work Store.dumps Store.client
                     untyped_event example_properties (PStr "my-bucket")
                     example_context (fresh (example_store (Some "{}")))
                     eq_refl eq_refl eq_refl));
      reflexivity.
Defined.

(** X16 on the example event and store. *)
Lemma create_attaches_policy_for_owner_witness :
  calls (snd (create Store.dumps Store.client create_event example_context
                     (fresh (example_store None))))
  = [ GetBucketTagging (PStr "my-bucket");
      PutBucketPolicy (PStr "my-bucket")
        (Store.dumps (policy_document (PStr "my-bucket")
                        (PList [PStr extra_arn; PStr owner_arn]) true)) ].
Proof.
  rewrite (create_attaches_policy_for_owner Store.dumps Store.client
             create_event example_properties (PStr "my-bucket") (PStr owner_arn)
             example_context (fresh (example_store None))
             [("TagSet", PList [Store.tag (principal_tag_name, owner_arn)])]
             (example_store None) []
             [("Key", PStr principal_tag_name); ("Value", PStr owner_arn)] []
             eq_refl eq_refl eq_refl eq_refl eq_refl (Forall_nil _)
             eq_refl eq_refl).
  reflexivity.
Defined.
